(** * Quick Kick Mogul: a shallow embedding of [src/App.tsx]

    The game is one React component.  Its [useState] cells become the fields
    of a record [State]; every event handler, timer callback and effect
    becomes a function on [State] that also returns the [alert] it shows, if
    any.  Sources of randomness ([Math.random], [Date.now]) are passed in as
    arguments.

    Numbers.  JavaScript numbers that the program only ever computes as
    integers (overall, value, league level, click power, stadium capacity,
    remaining seconds, thresholds and costs) are [Z].  Numbers that may be
    fractional (money, rewards, factors, the progress percentage) are exact
    rationals [Q]; the literals [1.1], [0.9], ... are the rationals they
    denote.  Rounding of IEEE doubles is not modelled. *)

From Stdlib Require Import ZArith QArith Qround List String Ascii Bool Lia.
From Stdlib Require Import DecimalString Lqa.
Import ListNotations.
Open Scope Z_scope.

(** ** Numbers *)

(** [x < y] on JavaScript numbers. *)
Definition Qlt_bool (x y : Q) : bool := negb (Qle_bool y x).

(** ** Players (lines 11-56) *)

Inductive Position := FWD | MID | DEF | GK.

Record Player := mkPlayer {
  id : string;
  name : string;
  overall : Z;
  value : Z;
  position : Position
}.

(** The results of the calls the generator makes to [Math.random] (each in
    [0, 1)) and the identifier it builds from [Date.now] and [Math.random]. *)
Record Draws := mkDraws {
  d_name : Q;
  d_overall : Q;
  d_initial : Q;
  d_id : string
}.

Definition names : list string :=
  ["Liam"; "Noah"; "Oliver"; "Elijah"; "William"; "James"; "Benjamin"; "Lucas";
   "Henry"; "Alexander"; "Mateo"; "Daniel"; "Michael"; "Ethan"; "Jacob";
   "Logan"; "Jackson"; "Sebastian"; "David"; "Joseph"]%string.

Definition generateRandomPlayer (d : Draws) (minOverall maxOverall : Z)
    (pos : Position) : Player :=
  let randomName :=
    nth (Z.to_nat (Qfloor (d_name d * inject_Z (Z.of_nat (List.length names)))))
        names ""%string in
  let randomOverall :=
    Qfloor (d_overall d * inject_Z (maxOverall - minOverall + 1)) + minOverall in
  let value := randomOverall * 100 in
  {| id := d_id d;
     name := (randomName ++ " " ++
              String (ascii_of_nat (65 + Z.to_nat (Qfloor (d_initial d * 26)))) "")%string;
     overall := randomOverall;
     value := value;
     position := pos |}.

(** The seven draws of a new game, in roster order. *)
Definition generateInitialLineup (ds : Draws * Draws * Draws * Draws * Draws * Draws * Draws)
    : list Player :=
  let '(d1, d2, d3, d4, d5, d6, d7) := ds in
  [ generateRandomPlayer d1 50 60 GK;
    generateRandomPlayer d2 45 55 DEF;
    generateRandomPlayer d3 45 55 DEF;
    generateRandomPlayer d4 55 65 MID;
    generateRandomPlayer d5 55 65 MID;
    generateRandomPlayer d6 60 70 FWD;
    generateRandomPlayer d7 60 70 FWD ].

(** ** League tiers (lines 59-107) *)

Record LeagueTier := mkTier {
  level : Z;
  tierName : string;
  baseWinReward : Q;
  overallMultiplier : Q;
  minFactor : Q;
  maxFactor : Q;
  promotionThresholdOverall : Z;
  promotionCost : Z
}.

Definition LEAGUE_TIERS : list LeagueTier :=
  [ mkTier 1 "Amateur League" 100 0.5 0.4 0.7 400 5000;
    mkTier 2 "Regional League" 500 1.0 0.6 0.9 800 20000;
    mkTier 3 "National League" 2000 2.0 0.8 1.1 1500 100000;
    mkTier 4 "Continental Championship" 5000 3.0 1.0 1.3 2500 500000 ].

(** [LEAGUE_TIERS.find(t => t.level === lvl)] *)
Definition findTier (lvl : Z) : option LeagueTier :=
  find (fun t => level t =? lvl) LEAGUE_TIERS.

(** [players.reduce((sum, p) => sum + p.overall, 0)] *)
Definition teamOverallOf (ps : list Player) : Z :=
  fold_left (fun sum p => sum + overall p) ps 0.

(** ** Game state (lines 159-190) *)

Definition MATCH_DURATION_SECONDS : Z := 5 * 60.

(** What the callback of a match interval closes over: [finishMatch] of the
    render in which the interval was created, and through it that render's
    [players] and [currentLeagueLevel]. *)
Record Closure := mkClosure {
  cl_players : list Player;
  cl_level : Z
}.

(** The [useState] cells, the [matchIntervalRef] ref, and the match
    intervals registered with [window.setInterval] and not yet cleared
    ([nextIntervalId] is the identifier the next one gets). *)
Record State := mkState {
  money : Q;
  clickPower : Z;
  stadiumCapacity : Z;
  passiveIncomePerSecond : Q;
  currentLeagueLevel : Z;
  players : list Player;
  matchInProgress : bool;
  matchTimeLeft : Z;
  matchProgress : Q;
  matchIntervalRef : option nat;
  intervals : list (nat * Closure);
  nextIntervalId : nat
}.

Definition setMoney (v : Q) (s : State) : State :=
  mkState v (clickPower s) (stadiumCapacity s) (passiveIncomePerSecond s)
    (currentLeagueLevel s) (players s) (matchInProgress s) (matchTimeLeft s)
    (matchProgress s) (matchIntervalRef s) (intervals s) (nextIntervalId s).

Definition setClickPower (v : Z) (s : State) : State :=
  mkState (money s) v (stadiumCapacity s) (passiveIncomePerSecond s)
    (currentLeagueLevel s) (players s) (matchInProgress s) (matchTimeLeft s)
    (matchProgress s) (matchIntervalRef s) (intervals s) (nextIntervalId s).

Definition setStadiumCapacity (v : Z) (s : State) : State :=
  mkState (money s) (clickPower s) v (passiveIncomePerSecond s)
    (currentLeagueLevel s) (players s) (matchInProgress s) (matchTimeLeft s)
    (matchProgress s) (matchIntervalRef s) (intervals s) (nextIntervalId s).

Definition setPassiveIncomePerSecond (v : Q) (s : State) : State :=
  mkState (money s) (clickPower s) (stadiumCapacity s) v
    (currentLeagueLevel s) (players s) (matchInProgress s) (matchTimeLeft s)
    (matchProgress s) (matchIntervalRef s) (intervals s) (nextIntervalId s).

Definition setCurrentLeagueLevel (v : Z) (s : State) : State :=
  mkState (money s) (clickPower s) (stadiumCapacity s) (passiveIncomePerSecond s)
    v (players s) (matchInProgress s) (matchTimeLeft s)
    (matchProgress s) (matchIntervalRef s) (intervals s) (nextIntervalId s).

Definition setPlayers (v : list Player) (s : State) : State :=
  mkState (money s) (clickPower s) (stadiumCapacity s) (passiveIncomePerSecond s)
    (currentLeagueLevel s) v (matchInProgress s) (matchTimeLeft s)
    (matchProgress s) (matchIntervalRef s) (intervals s) (nextIntervalId s).

Definition setMatchInProgress (v : bool) (s : State) : State :=
  mkState (money s) (clickPower s) (stadiumCapacity s) (passiveIncomePerSecond s)
    (currentLeagueLevel s) (players s) v (matchTimeLeft s)
    (matchProgress s) (matchIntervalRef s) (intervals s) (nextIntervalId s).

Definition setMatchTimeLeft (v : Z) (s : State) : State :=
  mkState (money s) (clickPower s) (stadiumCapacity s) (passiveIncomePerSecond s)
    (currentLeagueLevel s) (players s) (matchInProgress s) v
    (matchProgress s) (matchIntervalRef s) (intervals s) (nextIntervalId s).

Definition setMatchProgress (v : Q) (s : State) : State :=
  mkState (money s) (clickPower s) (stadiumCapacity s) (passiveIncomePerSecond s)
    (currentLeagueLevel s) (players s) (matchInProgress s) (matchTimeLeft s)
    v (matchIntervalRef s) (intervals s) (nextIntervalId s).

(** [matchIntervalRef.current = window.setInterval(callback, 1000)], the
    callback closing over [cl]. *)
Definition setInterval (cl : Closure) (s : State) : State :=
  mkState (money s) (clickPower s) (stadiumCapacity s) (passiveIncomePerSecond s)
    (currentLeagueLevel s) (players s) (matchInProgress s) (matchTimeLeft s)
    (matchProgress s) (Some (nextIntervalId s))
    (intervals s ++ [(nextIntervalId s, cl)]) (S (nextIntervalId s)).

(** [if (matchIntervalRef.current !== null) { clearInterval(matchIntervalRef.current);
    matchIntervalRef.current = null; }] *)
Definition clearMatchInterval (s : State) : State :=
  match matchIntervalRef s with
  | Some i =>
      mkState (money s) (clickPower s) (stadiumCapacity s) (passiveIncomePerSecond s)
        (currentLeagueLevel s) (players s) (matchInProgress s) (matchTimeLeft s)
        (matchProgress s) None
        (filter (fun e => negb (Nat.eqb (fst e) i)) (intervals s)) (nextIntervalId s)
  | None => s
  end.

(** The closure a handler created in the render of state [s] captures. *)
Definition closureOf (s : State) : Closure :=
  mkClosure (players s) (currentLeagueLevel s).

(** ** Alerts *)

Inductive Category := DOMINANT_WIN | WIN | DRAW | LOSS.

(** One constructor per [alert] call of the source, with the data its text
    is built from. *)
Inductive Notice :=
| NotEnoughMoneyTickets
| NotEnoughMoneyStadium
| Recruited (newPlayer oldPlayer : Player)
| NotEnoughMoneyRecruit (oldPlayer newPlayer : Player)
| Trained (p : Player)
| NotEnoughMoneyTrain (p : Player) (trainCost : Z)
| MatchSkipped
| LeagueDataMissing
| MatchResult (c : Category) (matchBonus : Q)
| NeedPlayers
| NotEnoughMoneyPromotion (next : LeagueTier)
| NotStrongEnough (next : LeagueTier) (teamOverall : Z)
| Promoted (next : LeagueTier).

(** ** Purchases (lines 194-225) *)

Definition handleTicketSaleClick (s : State) : State * option Notice :=
  (setMoney (money s + inject_Z (clickPower s)) s, None).

Definition buyClickPowerUpgrade (s : State) : State * option Notice :=
  let cost := 10 * clickPower s in
  if Qle_bool (inject_Z cost) (money s) then
    (setClickPower (clickPower s + 1) (setMoney (money s - inject_Z cost) s), None)
  else (s, Some NotEnoughMoneyTickets).

Definition buyStadiumUpgrade (s : State) : State * option Notice :=
  let cost := (50 * (inject_Z (stadiumCapacity s) / 100))%Q in
  if Qle_bool cost (money s) then
    let newCapacity := stadiumCapacity s + 100 in
    (setPassiveIncomePerSecond (inject_Z newCapacity / 100)
       (setStadiumCapacity newCapacity (setMoney (money s - cost) s)), None)
  else (s, Some NotEnoughMoneyStadium).

(** ** Roster (lines 227-282) *)

(** [xs.map((p, index) => f(p, index))], the index starting at [i]. *)
Fixpoint mapIndexFrom {A B : Type} (f : A -> nat -> B) (i : nat) (xs : list A) : list B :=
  match xs with
  | [] => []
  | x :: xs' => f x i :: mapIndexFrom f (S i) xs'
  end.

Definition mapIndex {A B : Type} (f : A -> nat -> B) (xs : list A) : list B :=
  mapIndexFrom f 0 xs.

Definition recruitNewPlayerInSlot (d : Draws) (slotIndex : nat) (s : State)
    : State * option Notice :=
  match nth_error (players s) slotIndex with
  | None => (s, None)
  | Some oldPlayer =>
      let newPlayerMinOverall := overall oldPlayer + 5 in
      let newPlayerMaxOverall := overall oldPlayer + 15 in
      let newPlayer :=
        generateRandomPlayer d newPlayerMinOverall newPlayerMaxOverall
          (position oldPlayer) in
      if Qle_bool (inject_Z (value newPlayer)) (money s) then
        (setPlayers
           (mapIndex (fun p index => if Nat.eqb index slotIndex then newPlayer else p)
                     (players s))
           (setMoney (money s - inject_Z (value newPlayer)) s),
         Some (Recruited newPlayer oldPlayer))
      else (s, Some (NotEnoughMoneyRecruit oldPlayer newPlayer))
  end.

Definition trainPlayerInSlot (slotIndex : nat) (s : State) : State * option Notice :=
  match nth_error (players s) slotIndex with
  | None => (s, None)
  | Some playerToTrain =>
      let trainCost := overall playerToTrain * 5 in
      if Qle_bool (inject_Z trainCost) (money s) then
        (setPlayers
           (mapIndex (fun p index =>
                        if Nat.eqb index slotIndex
                        then mkPlayer (id p) (name p) (overall p + 1) (value p + 100)
                                      (position p)
                        else p)
                     (players s))
           (setMoney (money s - inject_Z trainCost) s),
         Some (Trained playerToTrain))
      else (s, Some (NotEnoughMoneyTrain playerToTrain trainCost))
  end.

(** ** Match resolution (lines 284-332) *)

(** [Math.floor(Math.random() * (teamOverall * maxFactor - teamOverall * minFactor)
    + teamOverall * minFactor)], [r] being the result of [Math.random()].
    The arithmetic here is exact.  The doubles of the source round each
    product and the sum, which can carry the sum across an integer and make
    the floor differ by one from this value. *)
Definition opponentOverallOf (r : Q) (teamOverall : Z) (t : LeagueTier) : Z :=
  Qfloor (r * (inject_Z teamOverall * maxFactor t - inject_Z teamOverall * minFactor t)
          + inject_Z teamOverall * minFactor t)%Q.

(** The [if] / [else if] chain of lines 314-326: the category of the result
    (which message is shown) and [matchBonus]. *)
Definition matchOutcome (teamOverall opponentOverall : Z) (t : LeagueTier) : Category * Q :=
  if Qlt_bool (inject_Z opponentOverall * 1.1) (inject_Z teamOverall) then
    (DOMINANT_WIN,
     baseWinReward t * 1.5 + inject_Z teamOverall * overallMultiplier t * 1.5)%Q
  else if Qlt_bool (inject_Z opponentOverall * 0.9) (inject_Z teamOverall) then
    (WIN, baseWinReward t + inject_Z teamOverall * overallMultiplier t)%Q
  else if Qlt_bool (inject_Z opponentOverall * 0.7) (inject_Z teamOverall) then
    (DRAW,
     baseWinReward t * 0.5 + inject_Z teamOverall * overallMultiplier t * 0.5)%Q
  else
    (LOSS,
     baseWinReward t * 0.1 + inject_Z teamOverall * overallMultiplier t * 0.1)%Q.

Definition finishMatch (cl : Closure) (r : Q) (s : State) : State * option Notice :=
  let s1 :=
    clearMatchInterval
      (setMatchTimeLeft MATCH_DURATION_SECONDS (setMatchInProgress false s)) in
  let teamOverall := teamOverallOf (cl_players cl) in
  if teamOverall =? 0 then (s1, Some MatchSkipped)
  else
    match findTier (cl_level cl) with
    | None => (s1, Some LeagueDataMissing)
    | Some currentTier =>
        let opponentOverall := opponentOverallOf r teamOverall currentTier in
        let matchBonus := snd (matchOutcome teamOverall opponentOverall currentTier) in
        (setMoney (money s1 + matchBonus) s1,
         Some (MatchResult (fst (matchOutcome teamOverall opponentOverall currentTier))
                           matchBonus))
    end.

(** ** Match timer (lines 334-358) *)

(** [((MATCH_DURATION_SECONDS - t) / MATCH_DURATION_SECONDS) * 100] *)
Definition progressAt (t : Z) : Q :=
  (inject_Z (MATCH_DURATION_SECONDS - t) / inject_Z MATCH_DURATION_SECONDS * 100)%Q.

Definition startMatch (s : State) : State * option Notice :=
  if Nat.eqb (List.length (players s)) 0 then (s, Some NeedPlayers)
  else if matchInProgress s then (s, None)
  else
    (setInterval (closureOf s)
       (setMatchProgress 0
          (setMatchTimeLeft MATCH_DURATION_SECONDS (setMatchInProgress true s))),
     None).

(** One firing of the interval [i]: the updater passed to [setMatchTimeLeft]
    (lines 346-356 and 428-438).  The value it returns is stored in
    [matchTimeLeft]; the setter calls it makes on the way are queued while
    it runs and applied after that, so on the tick that ends the match the
    0 it returns is followed by the [setMatchTimeLeft(MATCH_DURATION_SECONDS)]
    of [finishMatch].  An interval that has been cleared does not fire. *)
Definition matchTick (i : nat) (r : Q) (s : State) : State * option Notice :=
  match find (fun e => Nat.eqb (fst e) i) (intervals s) with
  | None => (s, None)
  | Some (_, cl) =>
      let newTime := matchTimeLeft s - 1 in
      let s1 := setMatchProgress (progressAt newTime) s in
      if newTime <=? 0 then finishMatch cl r (setMatchTimeLeft 0 s1)
      else (setMatchTimeLeft newTime s1, None)
  end.

(** The passive income interval (lines 364-370). *)
Definition passiveTick (s : State) : State * option Notice :=
  (setMoney (money s + passiveIncomePerSecond s) s, None).

(** ** Promotion (the [onClick] of lines 642-659) *)

Definition promoteLeague (s : State) : State * option Notice :=
  match findTier (currentLeagueLevel s + 1) with
  | None => (s, None)
  | Some nextLeague =>
      let teamOverall := teamOverallOf (players s) in
      if Qlt_bool (money s) (inject_Z (promotionCost nextLeague)) then
        (s, Some (NotEnoughMoneyPromotion nextLeague))
      else if teamOverall <? promotionThresholdOverall nextLeague then
        (s, Some (NotStrongEnough nextLeague teamOverall))
      else
        (setCurrentLeagueLevel (currentLeagueLevel s + 1)
           (setMoney (money s - inject_Z (promotionCost nextLeague)) s),
         Some (Promoted nextLeague))
  end.

(** ** Persistence (lines 164-180 and 385-449) *)

(** The object [JSON.parse] returns for a saved game; a field is [None] when
    the object lacks it.  Fields that are present have the type the program
    writes. *)
Record Blob := mkBlob {
  b_money : option Q;
  b_clickPower : option Z;
  b_stadiumCapacity : option Z;
  b_passiveIncomePerSecond : option Q;
  b_players : option (list Player);
  b_matchInProgress : option bool;
  b_matchTimeLeft : option Z;
  b_currentLeagueLevel : option Z
}.

(** What [localStorage.getItem("quickKickMogulSave")] holds: nothing (or the
    empty string, which [if (savedGame)] treats alike), a text [JSON.parse]
    rejects, the text [null], or a text that parses to a value whose fields
    can be read.  Besides objects these are numbers, strings, booleans and
    arrays, which have none of the fields of a saved game and read as an
    object that lacks them all. *)
Inductive Stored :=
| Absent
| Unparseable
| ParsedNull
| Parsed (b : Blob).

(** A computation that may throw: the [SyntaxError] of [JSON.parse], or the
    [TypeError] of reading a field of [null].  Nothing in the source catches
    either. *)
Inductive Outcome (A : Type) :=
| Returned (a : A)
| SyntaxError
| TypeError.
Arguments Returned {A} a.
Arguments SyntaxError {A}.
Arguments TypeError {A}.

(** [x || d]: [d] when [x] is [undefined] or falsy. *)
Definition orQ (x : option Q) (d : Q) : Q :=
  match x with Some v => if Qeq_bool v 0 then d else v | None => d end.

Definition orZ (x : option Z) (d : Z) : Z :=
  match x with Some v => if v =? 0 then d else v | None => d end.

Definition orBool (x : option bool) (d : bool) : bool :=
  match x with Some true => true | _ => d end.

(** An array is truthy, also when empty. *)
Definition orPlayers (x : option (list Player)) (d : list Player) : list Player :=
  match x with Some ps => ps | None => d end.

(** The [useState] initialisers (lines 159-187); [fresh] is what
    [generateInitialLineup()] returns if it is called. *)
Definition initialState (st : Stored) (fresh : list Player) : Outcome State :=
  match st with
  | Absent =>
      Returned (mkState 0 1 100 0 1 fresh false MATCH_DURATION_SECONDS 0 None [] 0)
  | Unparseable => SyntaxError
  | ParsedNull => TypeError
  | Parsed b =>
      Returned (mkState 0 1 100 0 (orZ (b_currentLeagueLevel b) 1)
                  (orPlayers (b_players b) fresh)
                  false MATCH_DURATION_SECONDS 0 None [] 0)
  end.

(** Effect 3 (lines 385-406): what [localStorage] holds after it ran in
    state [s]. *)
Definition saveEffect (s : State) : Stored :=
  Parsed (mkBlob (Some (money s)) (Some (clickPower s)) (Some (stadiumCapacity s))
            (Some (passiveIncomePerSecond s)) (Some (players s))
            (Some (matchInProgress s)) (Some (matchTimeLeft s))
            (Some (currentLeagueLevel s))).

(** [parsedState.matchInProgress && parsedState.matchTimeLeft > 0] *)
Definition resumable (b : Blob) : bool :=
  match b_matchInProgress b, b_matchTimeLeft b with
  | Some true, Some t => 0 <? t
  | _, _ => false
  end.

(** Effect 4 (lines 409-449), run in the state [s] of the first render when
    [localStorage] holds [st]. *)
Definition loadEffect (st : Stored) (s : State) : Outcome State :=
  match st with
  | Absent =>
      Returned (setPassiveIncomePerSecond (inject_Z (stadiumCapacity s) / 100) s)
  | Unparseable => SyntaxError
  | ParsedNull => TypeError
  | Parsed b =>
      let s1 :=
        setMatchTimeLeft (orZ (b_matchTimeLeft b) MATCH_DURATION_SECONDS)
          (setMatchInProgress (orBool (b_matchInProgress b) false)
             (setPassiveIncomePerSecond (orQ (b_passiveIncomePerSecond b) 0)
                (setStadiumCapacity (orZ (b_stadiumCapacity b) 100)
                   (setClickPower (orZ (b_clickPower b) 1)
                      (setMoney (orQ (b_money b) 0) s))))) in
      if resumable b then
        Returned (setInterval (closureOf s)
                    (setMatchProgress
                       (progressAt (match b_matchTimeLeft b with
                                    | Some t => t | None => 0 end)) s1))
      else Returned s1
  end.

(** The load path on its own: the initialisers and effect 4 both reading
    [st]. *)
Definition rehydrate (st : Stored) (fresh : list Player) : Outcome State :=
  match initialState st fresh with
  | SyntaxError => SyntaxError
  | TypeError => TypeError
  | Returned s0 => loadEffect st s0
  end.

(** Mounting the component when [localStorage] holds [st].  The initialisers
    run during the first render; after it the effects run in the order they
    are declared, so effect 3 (line 385) stores the state of the first
    render before effect 4 (line 409) reads [localStorage]. *)
Definition mount (st : Stored) (fresh : list Player) : Outcome State :=
  match initialState st fresh with
  | SyntaxError => SyntaxError
  | TypeError => TypeError
  | Returned s0 => loadEffect (saveEffect s0) s0
  end.

(** The state of the first render: every cell at the constant its
    [useState] names, the league level and the roster as the initialisers
    computed them. *)
Definition firstRender (lvl : Z) (ps : list Player) : State :=
  mkState 0 1 100 0 lvl ps false MATCH_DURATION_SECONDS 0 None [] 0.

Definition newGame (fresh : list Player) : State := firstRender 1 fresh.

(** ** The game as a transition system *)

Inductive Action :=
| SellTickets
| BuyClickPower
| BuyStadium
| Recruit (d : Draws) (slotIndex : nat)
| Train (slotIndex : nat)
| StartMatch
| MatchTick (i : nat) (r : Q)
| PassiveTick
| Promote
| Reload (fresh : list Player)
| ClearSave (fresh : list Player).

Definition orStay (s : State) (o : Outcome State) : State :=
  match o with Returned s' => s' | SyntaxError | TypeError => s end.

(** The state after an action.  [Reload] is a restart of the page, which
    mounts the component on what effect 3 stored last; [ClearSave] is the
    button of lines 758-766. *)
Definition perform (a : Action) (s : State) : State :=
  match a with
  | SellTickets => fst (handleTicketSaleClick s)
  | BuyClickPower => fst (buyClickPowerUpgrade s)
  | BuyStadium => fst (buyStadiumUpgrade s)
  | Recruit d i => fst (recruitNewPlayerInSlot d i s)
  | Train i => fst (trainPlayerInSlot i s)
  | StartMatch => fst (startMatch s)
  | MatchTick i r => fst (matchTick i r s)
  | PassiveTick => fst (passiveTick s)
  | Promote => fst (promoteLeague s)
  | Reload fresh => orStay s (mount (saveEffect s) fresh)
  | ClearSave fresh => orStay s (mount Absent fresh)
  end.

Definition performAll (acts : list Action) (s : State) : State :=
  fold_left (fun s a => perform a s) acts s.

(** The states the game can be in: after a start on any content of
    [localStorage], and after any action from there. *)
Inductive reachable : State -> Prop :=
| reach_mount st fresh s : mount st fresh = Returned s -> reachable s
| reach_step a s : reachable s -> reachable (perform a s).

(** ** Upgrade visuals (lines 109-150) *)

Definition TIER_COLORS : list string :=
  [ "bg-gradient-to-br from-gray-700 to-gray-900";
    "bg-gradient-to-br from-yellow-700 to-yellow-900";
    "bg-gradient-to-br from-gray-400 to-gray-600";
    "bg-gradient-to-br from-amber-500 to-amber-700";
    "bg-gradient-to-br from-emerald-500 to-emerald-700";
    "bg-gradient-to-br from-blue-500 to-blue-700";
    "bg-gradient-to-br from-purple-500 to-purple-700";
    "bg-gradient-to-br from-red-500 to-red-700";
    "bg-gradient-to-br from-lime-500 to-lime-700";
    "bg-gradient-to-br from-sky-500 to-sky-700" ]%string.

(** The values an integer computation of JavaScript can take once it has
    divided: an integer, an infinity, or [NaN]. *)
Inductive JsNum :=
| Fin (z : Z)
| PosInfinity
| NegInfinity
| NotANumber.

(** [Math.floor(a / b)] on integers: a division by 0 gives [NaN] for
    [0 / 0] and an infinity of the sign of [a] otherwise. *)
Definition floorDiv (a b : Z) : JsNum :=
  if b =? 0 then
    if a =? 0 then NotANumber else if 0 <? a then PosInfinity else NegInfinity
  else Fin (a / b).

(** [Math.min(x, m)] *)
Definition jsMin (x : JsNum) (m : Z) : JsNum :=
  match x with
  | Fin q => Fin (Z.min q m)
  | PosInfinity => Fin m
  | NegInfinity => NegInfinity
  | NotANumber => NotANumber
  end.

(** [x + 1] *)
Definition jsSucc (x : JsNum) : JsNum :=
  match x with
  | Fin q => Fin (q + 1)
  | other => other
  end.

(** [TIER_COLORS[x]]: [None] is [undefined]. *)
Definition tierColorAt (x : JsNum) : option string :=
  match x with
  | Fin i => if i <? 0 then None else nth_error TIER_COLORS (Z.to_nat i)
  | _ => None
  end.

(** [x || d] on strings: [undefined] and the empty string are falsy. *)
Definition orString (x : option string) (d : string) : string :=
  match x with
  | Some EmptyString => d
  | Some s => s
  | None => d
  end.

Record Visuals := mkVisuals {
  colorClass : string;
  tierNumber : JsNum
}.

Definition getUpgradeTierVisuals (currentLevel levelsPerColorTier maxPossibleTier : Z)
    : Visuals :=
  let zeroIndexedLevel := Z.max 0 (currentLevel - 1) in
  let colorTierIndex :=
    jsMin (floorDiv zeroIndexedLevel levelsPerColorTier) (maxPossibleTier - 1) in
  let tierNumber :=
    jsMin (jsSucc (floorDiv zeroIndexedLevel levelsPerColorTier)) maxPossibleTier in
  {| colorClass := orString (tierColorAt colorTierIndex) (nth 0 TIER_COLORS ""%string);
     tierNumber := tierNumber |}.

(** The default of [maxPossibleTier]: [TIER_COLORS.length]. *)
Definition defaultMaxTier : Z := Z.of_nat (List.length TIER_COLORS).

(** The four uses of the function in the page (lines 478, 538, 574, 699). *)
Definition leagueVisuals (s : State) : Visuals :=
  getUpgradeTierVisuals (currentLeagueLevel s) 1 defaultMaxTier.

Definition clickPowerVisuals (s : State) : Visuals :=
  getUpgradeTierVisuals (clickPower s) 10 defaultMaxTier.

Definition stadiumVisuals (s : State) : Visuals :=
  let stadiumUpgradeLevel := stadiumCapacity s / 100 - 1 in
  getUpgradeTierVisuals stadiumUpgradeLevel 2 defaultMaxTier.

Definition playerVisuals (p : Player) : Visuals :=
  getUpgradeTierVisuals (overall p) 5 defaultMaxTier.

(** ** The clock (lines 452-456) *)

(** [n.toString()] for an integer [n]. *)
Definition toString (n : Z) : string := NilZero.string_of_int (Z.to_int n).

Fixpoint repeatChar (c : ascii) (n : nat) : string :=
  match n with
  | O => EmptyString
  | S n' => String c (repeatChar c n')
  end.

(** [s.padStart(targetLength, c)] for a pad string of the one character
    [c]. *)
Definition padStart (targetLength : nat) (c : ascii) (s : string) : string :=
  (repeatChar c (targetLength - String.length s) ++ s)%string.

(** [seconds % 60] has the sign of [seconds]. *)
Definition formatTime (seconds : Z) : string :=
  let minutes := seconds / 60 in
  let remainingSeconds := Z.rem seconds 60 in
  (padStart 2 "0" (toString minutes) ++ ":" ++ padStart 2 "0" (toString remainingSeconds))%string.

(** ** What the page offers (the [disabled] and rendering tests of the
    buttons) *)

(** Line 561. *)
Definition clickPowerButtonDisabled (s : State) : bool :=
  Qlt_bool (money s) (inject_Z (10 * clickPower s)).

(** Line 601. *)
Definition stadiumButtonDisabled (s : State) : bool :=
  Qlt_bool (money s) (50 * (inject_Z (stadiumCapacity s) / 100))%Q.

(** Line 732. *)
Definition trainButtonDisabled (s : State) (player : Player) : bool :=
  Qlt_bool (money s) (inject_Z (overall player * 5)).

(** Line 745. *)
Definition recruitButtonDisabled (s : State) (player : Player) : bool :=
  Qlt_bool (money s) (inject_Z ((overall player + 5) * 100)).

(** Lines 507 and 521: the button is there when no match is in progress,
    and disabled without players. *)
Definition playButtonRendered (s : State) : bool := negb (matchInProgress s).

Definition playButtonDisabled (s : State) : bool :=
  Nat.eqb (List.length (players s)) 0.

(** Line 640. *)
Definition promoteButtonRendered (s : State) : bool :=
  currentLeagueLevel s <? Z.of_nat (List.length LEAGUE_TIERS).

(** [x?.field || Infinity]: [None] is [Infinity]. *)
Definition orInfinity (x : option Z) : option Z :=
  match x with
  | Some v => if v =? 0 then None else Some v
  | None => None
  end.

(** Lines 666-670. *)
Definition promoteButtonDisabled (s : State) : bool :=
  let nextLeague := findTier (currentLeagueLevel s + 1) in
  (Z.of_nat (List.length LEAGUE_TIERS) <=? currentLeagueLevel s)
  || match orInfinity (option_map promotionCost nextLeague) with
     | Some c => Qlt_bool (money s) (inject_Z c)
     | None => true
     end
  || match orInfinity (option_map promotionThresholdOverall nextLeague) with
     | Some t => teamOverallOf (players s) <? t
     | None => true
     end.

(** Line 489: the name shown for the current league. *)
Definition currentLeagueName (s : State) : string :=
  orString (option_map tierName (findTier (currentLeagueLevel s))) "Unknown League".

(** * Vocabulary of the properties

    Predicates the statements below use, and the concrete states and stored
    games they are tried on. *)

(** The second entry of [LEAGUE_TIERS]. *)
Definition tier2 : LeagueTier := mkTier 2 "Regional League" 500 1.0 0.6 0.9 800 20000.

(** A new game's roster whose overalls are 60, 55, 55, 60, 60, 65, 65. *)
Definition lineup420 : list Player :=
  let d (r : Q) := mkDraws 0 r 0 "0" in
  generateInitialLineup
    (d (10 # 11), d (10 # 11), d (10 # 11), d (5 # 11), d (5 # 11), d (5 # 11), d (5 # 11))%Q.

(** A new game on an empty [localStorage] with that roster, after 5000
    ticket sales of 1 each. *)
Definition scenarioC : State :=
  performAll (repeat SellTickets 5000) (newGame lineup420).

(** Seven players of overall 120: a summed overall of 840. *)
Definition strongRoster : list Player :=
  map (fun n => mkPlayer n n 120 12000 MID) ["1"; "2"; "3"; "4"; "5"; "6"; "7"]%string.

(** League 1, that roster and exactly the 20000 the second tier asks. *)
Definition richStrongState : State :=
  mkState 20000 1 100 0 1 strongRoster false 300 0 None [] 0.

(** The three ways the handler can refuse. *)
Definition promotionRejected (s : State) : Prop :=
  match findTier (currentLeagueLevel s + 1) with
  | None => True
  | Some nextLeague =>
      (money s < inject_Z (promotionCost nextLeague))%Q \/
      teamOverallOf (players s) < promotionThresholdOverall nextLeague
  end.

(** The factor by which each category scales the full reward. *)
Definition rewardScale (c : Category) : Q :=
  match c with
  | DOMINANT_WIN => 1.5
  | WIN => 1.0
  | DRAW => 0.5
  | LOSS => 0.1
  end.

(** The first entry of [LEAGUE_TIERS]. *)
Definition tier1 : LeagueTier := mkTier 1 "Amateur League" 100 0.5 0.4 0.7 400 5000.

(** A squad of summed overall 100 in league 1. *)
Definition scenarioD : Closure :=
  mkClosure [mkPlayer "1" "Liam A" 50 5000 GK; mkPlayer "2" "Noah B" 50 5000 FWD] 1.

(** DOMINANT_WIN > WIN > DRAW > LOSS *)
Definition rank (c : Category) : nat :=
  match c with
  | DOMINANT_WIN => 3
  | WIN => 2
  | DRAW => 1
  | LOSS => 0
  end.

(** The player a training session makes of [p]. *)
Definition trained (p : Player) : Player :=
  mkPlayer (id p) (name p) (overall p + 1) (value p + 100) (position p).

(** Money 300, a goalkeeper of overall 60 (training costs 300) and a
    defender. *)
Definition trainingCamp : State :=
  mkState 300 1 100 0 1
    [mkPlayer "1" "Liam A" 60 6000 GK; mkPlayer "2" "Noah B" 55 5500 DEF]
    false 300 0 None [] 0.

(** What holds of the timer in every reachable state: the remaining time is
    between 0 and the duration; a match in progress has exactly one
    interval, the one the ref names, at least a second left and a squad; no
    match in progress means no interval. *)
Record timerInv (s : State) : Prop := mkTimerInv {
  inv_range : 0 <= matchTimeLeft s <= MATCH_DURATION_SECONDS;
  inv_running :
    matchInProgress s = true ->
    (exists i cl, intervals s = [(i, cl)] /\ matchIntervalRef s = Some i) /\
    1 <= matchTimeLeft s /\
    players s <> [];
  inv_idle :
    matchInProgress s = false -> intervals s = [] /\ matchIntervalRef s = None
}.

(** A new game in which the match has just been started. *)
Definition kickOff : State := fst (startMatch (newGame lineup420)).

(** A new game after one ticket sale. *)
Definition afterSale : State := perform SellTickets (newGame lineup420).

(** A new game whose match has run to its end, the opponent drawn with
    [Math.random() = 1/3] . *)
Definition fullTime : State :=
  performAll (StartMatch :: repeat (MatchTick 0 (1 # 3)) 300) (newGame lineup420).


(** A new game 180 seconds into its match. *)
Definition midMatch : State :=
  performAll (StartMatch :: repeat (MatchTick 0 (1 # 3)) 180) (newGame lineup420).

(** A stored game with a match in progress and no time left. *)
Definition expiredBlob : Blob :=
  mkBlob (Some 0%Q) (Some 1) (Some 100) (Some 0%Q) (Some lineup420)
    (Some true) (Some 0) (Some 1).

(** The state effect 4 makes of it. *)
Definition stalled : State :=
  mkState 0 1 100 0 1 lineup420 true 300 0 None [] 0.

(** The defaults of a start without a saved game. *)
Definition absentDefaults (fresh : list Player) (s : State) : Prop :=
  money s = 0%Q /\
  clickPower s = 1 /\
  stadiumCapacity s = 100 /\
  passiveIncomePerSecond s = 0%Q /\
  currentLeagueLevel s = 1 /\
  matchInProgress s = false /\
  matchTimeLeft s = 300 /\
  players s = fresh.

(** Each field the stored object lacks has its default. *)
Definition missingDefaults (b : Blob) (fresh : list Player) (s : State) : Prop :=
  (b_money b = None -> money s = 0%Q) /\
  (b_clickPower b = None -> clickPower s = 1) /\
  (b_stadiumCapacity b = None -> stadiumCapacity s = 100) /\
  (b_passiveIncomePerSecond b = None -> passiveIncomePerSecond s = 0%Q) /\
  (b_players b = None -> players s = fresh) /\
  (b_matchInProgress b = None -> matchInProgress s = false) /\
  (b_matchTimeLeft b = None -> matchTimeLeft s = 300) /\
  (b_currentLeagueLevel b = None -> currentLeagueLevel s = 1).

(** A stored object with no field at all. *)
Definition emptyBlob : Blob := mkBlob None None None None None None None None.

(** What [Math.random] promises of its result: a number in [0, 1). *)
Definition unitInterval (r : Q) : Prop := (0 <= r)%Q /\ (r < 1)%Q.

Definition fairDraws (d : Draws) : Prop :=
  unitInterval (d_name d) /\ unitInterval (d_overall d) /\ unitInterval (d_initial d).

(** A draw in the middle of each range: "Mateo N", the sixth of the eleven
    overalls. *)
Definition middleDraws : Draws := mkDraws (1 # 2) (1 # 2) (1 # 2) "42".

(** The actions that leave the match timer alone. *)
Definition quiet (a : Action) : bool :=
  match a with
  | SellTickets | BuyClickPower | BuyStadium | Recruit _ _ | Train _
  | PassiveTick | Promote => true
  | StartMatch | MatchTick _ _ | Reload _ | ClearSave _ => false
  end.





(** No overall below 0. *)
Definition nonNegative (ps : list Player) : Prop :=
  Forall (fun p => 0 <= overall p) ps.

(** The books are in order: no debt, no negative income, the first level of
    each upgrade at least, and no negative overall in the roster or in a
    roster a running match remembers. *)
Record solvent (s : State) : Prop := mkSolvent {
  sol_money : (0 <= money s)%Q;
  sol_passive : (0 <= passiveIncomePerSecond s)%Q;
  sol_click : 1 <= clickPower s;
  sol_stadium : 100 <= stadiumCapacity s;
  sol_players : nonNegative (players s);
  sol_closures : Forall (fun e => nonNegative (cl_players (snd e))) (intervals s)
}.

(** The draws of an action are in [0, 1) and a regenerated lineup has no
    negative overall. *)
Definition fairAction (a : Action) : Prop :=
  match a with
  | Recruit d _ => unitInterval (d_overall d)
  | ClearSave fresh => nonNegative fresh
  | _ => True
  end.

(** The stadium has [k] hundreds of seats, and the passive income is [k]
    once an upgrade was bought since the page was opened, 0 before. *)
Definition stadiumInv (s : State) : Prop :=
  1 <= clickPower s /\
  exists k : Z,
    1 <= k /\
    stadiumCapacity s = 100 * k /\
    ((k = 1 /\ (passiveIncomePerSecond s == 0)%Q) \/
     (passiveIncomePerSecond s == inject_Z k)%Q).

(** The character of a decimal digit. *)
Definition digitChar (d : Z) : ascii := ascii_of_nat (48 + Z.to_nat d).

(** "MM:SS" written out digit by digit. *)
Definition clockFace (minutes seconds : Z) : string :=
  String (digitChar (minutes / 10))
    (String (digitChar (minutes mod 10))
       (String ":"
          (String (digitChar (seconds / 10))
             (String (digitChar (seconds mod 10)) EmptyString)))).

(** The number a digit character stands for. *)
Definition digitValue (c : ascii) : Z := Z.of_nat (nat_of_ascii c) - 48.

(** The seconds a clock of five characters shows. *)
Definition readClock (s : string) : Z :=
  match s with
  | String a (String b (String _ (String c (String d EmptyString)))) =>
      (digitValue a * 10 + digitValue b) * 60 + digitValue c * 10 + digitValue d
  | _ => -1
  end.

(** The progress bar is between 0 and 100 per cent, and while a match is in
    progress it is the percentage the remaining time gives. *)
Definition progressInv (s : State) : Prop :=
  (0 <= matchProgress s)%Q /\
  (matchProgress s <= 100)%Q /\
  (matchInProgress s = true -> (matchProgress s == progressAt (matchTimeLeft s))%Q).

(** * Properties *)

(** ** Comparisons *)

Lemma Qlt_bool_iff (x y : Q) : Qlt_bool x y = true <-> (x < y)%Q.
Proof.
  unfold Qlt_bool. rewrite negb_true_iff.
  split; intro H.
  - apply Qnot_le_lt. intro Hle. apply Qle_bool_iff in Hle. congruence.
  - destruct (Qle_bool y x) eqn:E; [|reflexivity].
    apply Qle_bool_iff in E. exfalso. exact (Qlt_not_le _ _ H E).
Qed.

Lemma Qlt_bool_false_iff (x y : Q) : Qlt_bool x y = false <-> (y <= x)%Q.
Proof.
  unfold Qlt_bool. rewrite negb_false_iff. apply Qle_bool_iff.
Qed.

(** ** Mounting and reachability *)

(** What mounting leaves: the state of the first render. *)
Lemma mount_initialState (st : Stored) (fresh : list Player) :
  mount st fresh = initialState st fresh.
Proof. destruct st as [| | |b]; reflexivity. Qed.

Lemma mount_Absent (fresh : list Player) :
  mount Absent fresh = Returned (newGame fresh).
Proof. reflexivity. Qed.

Lemma reachable_performAll (acts : list Action) (s : State) :
  reachable s -> reachable (performAll acts s).
Proof.
  revert s. induction acts as [|a acts IH]; intros s Hs.
  - exact Hs.
  - simpl. apply IH. apply reach_step. exact Hs.
Qed.

Lemma reachable_newGame (fresh : list Player) : reachable (newGame fresh).
Proof. apply (reach_mount Absent fresh). reflexivity. Qed.

Lemma scenarioC_reachable : reachable scenarioC.
Proof. apply reachable_performAll, reachable_newGame. Qed.

(** ** Promotion *)

(** C1, counterexample.  In a reachable state with league level 1, summed
    overall 420 and money 5000, [promoteLeague] is rejected for lack of
    money: the level stays 1 and the money stays 5000. *)
Lemma promoteLeague_scenarioC_rejected :
  currentLeagueLevel scenarioC = 1 /\
  teamOverallOf (players scenarioC) = 420 /\
  money scenarioC = 5000%Q /\
  promoteLeague scenarioC = (scenarioC, Some (NotEnoughMoneyPromotion tier2)) /\
  ~ (currentLeagueLevel (fst (promoteLeague scenarioC)) = 2 /\
     (money (fst (promoteLeague scenarioC)) == 0)%Q).
Proof.
  assert (E : promoteLeague scenarioC = (scenarioC, Some (NotEnoughMoneyPromotion tier2)))
    by (vm_compute; reflexivity).
  repeat split; try (vm_compute; reflexivity).
  rewrite E. cbn [fst]. intros [H _]. vm_compute in H. discriminate H.
Qed.

(** C1, amended.  From league level 1 the promotion is gated by the entry of
    the next tier (level 2: cost 20000, threshold 800).  With at least 20000
    of money and a summed overall of at least 800 it succeeds: the level
    becomes 2 and the cost is deducted, leaving 0 when the money was 20000.
    With less than 20000 (5000, say) it is rejected and the state is kept,
    and so it is with a summed overall below 800. *)
Theorem promoteLeague_from_level_1 (s : State) :
  currentLeagueLevel s = 1 ->
  ((20000 <= money s)%Q ->
   800 <= teamOverallOf (players s) ->
   snd (promoteLeague s) = Some (Promoted tier2) /\
   currentLeagueLevel (fst (promoteLeague s)) = 2 /\
   money (fst (promoteLeague s)) = (money s - 20000)%Q /\
   ((money s == 20000)%Q -> (money (fst (promoteLeague s)) == 0)%Q)) /\
  ((money s < 20000)%Q ->
   promoteLeague s = (s, Some (NotEnoughMoneyPromotion tier2))) /\
  ((20000 <= money s)%Q ->
   teamOverallOf (players s) < 800 ->
   promoteLeague s = (s, Some (NotStrongEnough tier2 (teamOverallOf (players s))))).
Proof.
  intros Hl. unfold promoteLeague. rewrite Hl.
  change (findTier (1 + 1)) with (Some tier2). cbv beta iota zeta.
  change (inject_Z (promotionCost tier2)) with 20000%Q.
  change (promotionThresholdOverall tier2) with 800.
  split.
  - intros Hm Ht.
    assert (E1 : Qlt_bool (money s) 20000 = false)
      by (apply Qlt_bool_false_iff; exact Hm).
    assert (E2 : (teamOverallOf (players s) <? 800) = false)
      by (apply Z.ltb_ge; exact Ht).
    rewrite E1, E2. simpl.
    repeat split. intros He. rewrite He. reflexivity.
  - split.
    + intros Hm.
      assert (E1 : Qlt_bool (money s) 20000 = true)
        by (apply Qlt_bool_iff; exact Hm).
      rewrite E1. reflexivity.
    + intros Hm Ht.
      assert (E1 : Qlt_bool (money s) 20000 = false)
        by (apply Qlt_bool_false_iff; exact Hm).
      assert (E2 : (teamOverallOf (players s) <? 800) = true)
        by (apply Z.ltb_lt; exact Ht).
      rewrite E1, E2. reflexivity.
Qed.

Lemma promoteLeague_from_level_1_witness :
  snd (promoteLeague richStrongState) = Some (Promoted tier2) /\
  currentLeagueLevel (fst (promoteLeague richStrongState)) = 2 /\
  (money (fst (promoteLeague richStrongState)) == 0)%Q.
Proof.
  pose proof (promoteLeague_from_level_1 richStrongState eq_refl) as [H _].
  assert (Hm : (20000 <= money richStrongState)%Q) by (vm_compute; discriminate).
  assert (Ht : 800 <= teamOverallOf (players richStrongState)) by (vm_compute; discriminate).
  destruct (H Hm Ht) as (H1 & H2 & _ & H4).
  split; [exact H1 | split; [exact H2 | apply H4; reflexivity]].
Defined.

(** C6.  A rejected promotion (no next tier, too little money, or too low a
    summed overall) returns the state it was given, every field included,
    and does not report a promotion. *)
Theorem promoteLeague_rejected_unchanged (s : State) :
  promotionRejected s ->
  fst (promoteLeague s) = s /\
  forall next, snd (promoteLeague s) <> Some (Promoted next).
Proof.
  unfold promotionRejected, promoteLeague.
  destruct (findTier (currentLeagueLevel s + 1)) as [t|].
  - intros H.
    destruct (Qlt_bool (money s) (inject_Z (promotionCost t))) eqn:E1.
    + split; [reflexivity | intros n; simpl; discriminate].
    + destruct (teamOverallOf (players s) <? promotionThresholdOverall t) eqn:E2.
      * split; [reflexivity | intros n; simpl; discriminate].
      * exfalso. apply Qlt_bool_false_iff in E1. apply Z.ltb_ge in E2.
        destruct H as [H | H].
        -- exact (Qlt_not_le _ _ H E1).
        -- lia.
  - intros _. split; [reflexivity | intros n; simpl; discriminate].
Qed.

Lemma promoteLeague_rejected_unchanged_witness :
  fst (promoteLeague (newGame lineup420)) = newGame lineup420.
Proof.
  apply (promoteLeague_rejected_unchanged (newGame lineup420)).
  left. vm_compute. reflexivity.
Defined.

(** Conversely, a promotion that is not rejected takes place. *)
Lemma promoteLeague_accepted (s : State) :
  ~ promotionRejected s ->
  exists next,
    findTier (currentLeagueLevel s + 1) = Some next /\
    promoteLeague s =
      (setCurrentLeagueLevel (currentLeagueLevel s + 1)
         (setMoney (money s - inject_Z (promotionCost next)) s),
       Some (Promoted next)).
Proof.
  unfold promotionRejected, promoteLeague.
  destruct (findTier (currentLeagueLevel s + 1)) as [t|]; [|tauto].
  intros H. exists t. split; [reflexivity|].
  destruct (Qlt_bool (money s) (inject_Z (promotionCost t))) eqn:E1.
  - exfalso. apply H. left. apply Qlt_bool_iff. exact E1.
  - destruct (teamOverallOf (players s) <? promotionThresholdOverall t) eqn:E2.
    + exfalso. apply H. right. apply Z.ltb_lt. exact E2.
    + reflexivity.
Qed.

(** ** Match resolution *)

Lemma matchOutcome_dominant (team opp : Z) (t : LeagueTier) :
  (inject_Z opp * 1.1 < inject_Z team)%Q ->
  matchOutcome team opp t =
    (DOMINANT_WIN,
     (baseWinReward t * 1.5 + inject_Z team * overallMultiplier t * 1.5)%Q).
Proof.
  intros H. unfold matchOutcome.
  apply Qlt_bool_iff in H. rewrite H. reflexivity.
Qed.

Lemma matchOutcome_win (team opp : Z) (t : LeagueTier) :
  ~ (inject_Z opp * 1.1 < inject_Z team)%Q ->
  (inject_Z opp * 0.9 < inject_Z team)%Q ->
  matchOutcome team opp t =
    (WIN, (baseWinReward t + inject_Z team * overallMultiplier t)%Q).
Proof.
  intros H1 H2. unfold matchOutcome.
  destruct (Qlt_bool (inject_Z opp * 1.1) (inject_Z team)) eqn:E1.
  - exfalso. apply H1. apply Qlt_bool_iff. exact E1.
  - apply Qlt_bool_iff in H2. rewrite H2. reflexivity.
Qed.

Lemma matchOutcome_draw (team opp : Z) (t : LeagueTier) :
  ~ (inject_Z opp * 1.1 < inject_Z team)%Q ->
  ~ (inject_Z opp * 0.9 < inject_Z team)%Q ->
  (inject_Z opp * 0.7 < inject_Z team)%Q ->
  matchOutcome team opp t =
    (DRAW,
     (baseWinReward t * 0.5 + inject_Z team * overallMultiplier t * 0.5)%Q).
Proof.
  intros H1 H2 H3. unfold matchOutcome.
  destruct (Qlt_bool (inject_Z opp * 1.1) (inject_Z team)) eqn:E1.
  - exfalso. apply H1. apply Qlt_bool_iff. exact E1.
  - destruct (Qlt_bool (inject_Z opp * 0.9) (inject_Z team)) eqn:E2.
    + exfalso. apply H2. apply Qlt_bool_iff. exact E2.
    + apply Qlt_bool_iff in H3. rewrite H3. reflexivity.
Qed.

Lemma matchOutcome_loss (team opp : Z) (t : LeagueTier) :
  ~ (inject_Z opp * 1.1 < inject_Z team)%Q ->
  ~ (inject_Z opp * 0.9 < inject_Z team)%Q ->
  ~ (inject_Z opp * 0.7 < inject_Z team)%Q ->
  matchOutcome team opp t =
    (LOSS,
     (baseWinReward t * 0.1 + inject_Z team * overallMultiplier t * 0.1)%Q).
Proof.
  intros H1 H2 H3. unfold matchOutcome.
  destruct (Qlt_bool (inject_Z opp * 1.1) (inject_Z team)) eqn:E1.
  - exfalso. apply H1. apply Qlt_bool_iff. exact E1.
  - destruct (Qlt_bool (inject_Z opp * 0.9) (inject_Z team)) eqn:E2.
    + exfalso. apply H2. apply Qlt_bool_iff. exact E2.
    + destruct (Qlt_bool (inject_Z opp * 0.7) (inject_Z team)) eqn:E3.
      * exfalso. apply H3. apply Qlt_bool_iff. exact E3.
      * reflexivity.
Qed.

(** [finishMatch] with a squad and a tier: the alert names the outcome of
    [matchOutcome] and its bonus is added to the money. *)
Lemma finishMatch_resolved (cl : Closure) (r : Q) (s : State) (t : LeagueTier) :
  teamOverallOf (cl_players cl) <> 0 ->
  findTier (cl_level cl) = Some t ->
  let team := teamOverallOf (cl_players cl) in
  let out := matchOutcome team (opponentOverallOf r team t) t in
  snd (finishMatch cl r s) = Some (MatchResult (fst out) (snd out)) /\
  money (fst (finishMatch cl r s)) = (money s + snd out)%Q.
Proof.
  intros Hteam Htier team out. unfold finishMatch.
  apply Z.eqb_neq in Hteam. rewrite Hteam, Htier. cbv beta iota zeta.
  split; [reflexivity|].
  unfold clearMatchInterval. simpl.
  destruct (matchIntervalRef s); reflexivity.
Qed.

(** C2.  With a squad of positive summed overall and the tier of the league
    found, the match ends with exactly the category the ordered thresholds
    1.1, 0.9, 0.7 give against the sampled opponent, the first that holds
    winning; the bonus added to the money is
    [baseWinReward + teamOverall * overallMultiplier] scaled by 1.5, 1.0, 0.5
    or 0.1.  A team of 100 against an opponent of 50 is a dominant win worth
    [baseWinReward * 1.5 + 100 * overallMultiplier * 1.5]. *)
Theorem finishMatch_classifies (cl : Closure) (r : Q) (s : State) (t : LeagueTier) :
  0 < teamOverallOf (cl_players cl) ->
  findTier (cl_level cl) = Some t ->
  let team := teamOverallOf (cl_players cl) in
  let opp := opponentOverallOf r team t in
  let above (f : Q) := (inject_Z opp * f < inject_Z team)%Q in
  exists (c : Category) (bonus : Q),
    snd (finishMatch cl r s) = Some (MatchResult c bonus) /\
    money (fst (finishMatch cl r s)) = (money s + bonus)%Q /\
    (bonus == (baseWinReward t + inject_Z team * overallMultiplier t) * rewardScale c)%Q /\
    (above 1.1%Q -> c = DOMINANT_WIN) /\
    (~ above 1.1%Q -> above 0.9%Q -> c = WIN) /\
    (~ above 1.1%Q -> ~ above 0.9%Q -> above 0.7%Q -> c = DRAW) /\
    (~ above 1.1%Q -> ~ above 0.9%Q -> ~ above 0.7%Q -> c = LOSS) /\
    (team = 100 -> opp = 50 ->
     c = DOMINANT_WIN /\
     bonus = (baseWinReward t * 1.5 + 100 * overallMultiplier t * 1.5)%Q).
Proof.
  intros Hpos Htier team opp above.
  assert (Hne : teamOverallOf (cl_players cl) <> 0) by lia.
  destruct (finishMatch_resolved cl r s t Hne Htier) as [Hn Hm].
  fold team in Hn, Hm. fold opp in Hn, Hm.
  exists (fst (matchOutcome team opp t)), (snd (matchOutcome team opp t)).
  split; [exact Hn|]. split; [exact Hm|].
  assert (Hscale :
    (snd (matchOutcome team opp t) ==
     (baseWinReward t + inject_Z team * overallMultiplier t)
     * rewardScale (fst (matchOutcome team opp t)))%Q).
  { unfold matchOutcome.
    destruct (Qlt_bool (inject_Z opp * 1.1) (inject_Z team));
      [|destruct (Qlt_bool (inject_Z opp * 0.9) (inject_Z team));
        [|destruct (Qlt_bool (inject_Z opp * 0.7) (inject_Z team))]];
      simpl fst; simpl snd; unfold rewardScale; ring. }
  split; [exact Hscale|].
  split; [intros H; rewrite (matchOutcome_dominant _ _ t H); reflexivity|].
  split; [intros H1 H2; rewrite (matchOutcome_win _ _ t H1 H2); reflexivity|].
  split; [intros H1 H2 H3; rewrite (matchOutcome_draw _ _ t H1 H2 H3); reflexivity|].
  split; [intros H1 H2 H3; rewrite (matchOutcome_loss _ _ t H1 H2 H3); reflexivity|].
  intros H100 H50. rewrite H100, H50.
  rewrite (matchOutcome_dominant 100 50 t); [split; reflexivity|].
  reflexivity.
Qed.

Lemma finishMatch_classifies_witness :
  opponentOverallOf (1 # 3) 100 tier1 = 50 /\
  snd (finishMatch scenarioD (1 # 3) (newGame (cl_players scenarioD))) =
    Some (MatchResult DOMINANT_WIN (100 * 1.5 + 100 * 0.5 * 1.5)%Q).
Proof.
  split; [reflexivity|].
  destruct (finishMatch_classifies scenarioD (1 # 3)
              (newGame (cl_players scenarioD)) tier1)
    as (c & bonus & Hn & _ & _ & _ & _ & _ & _ & H).
  - reflexivity.
  - reflexivity.
  - destruct H as [Hc Hb]; [reflexivity | reflexivity |].
    rewrite Hn, Hc, Hb. reflexivity.
Defined.

(** ** Monotonicity of the outcome *)

Lemma above_mono (x : Q) (a b : Z) :
  a <= b -> Qlt_bool x (inject_Z a) = true -> Qlt_bool x (inject_Z b) = true.
Proof.
  intros Hab H. apply Qlt_bool_iff in H. apply Qlt_bool_iff.
  apply Qlt_le_trans with (inject_Z a); [exact H|].
  rewrite <- Zle_Qle. exact Hab.
Qed.

(** C7.  Against the same opponent a higher team overall never gives a worse
    category. *)
Theorem matchOutcome_monotone (team team' opp : Z) (t : LeagueTier) :
  team <= team' ->
  (rank (fst (matchOutcome team opp t)) <= rank (fst (matchOutcome team' opp t)))%nat.
Proof.
  intros Hle. unfold matchOutcome.
  destruct (Qlt_bool (inject_Z opp * 1.1) (inject_Z team)) eqn:E1.
  { rewrite (above_mono _ _ _ Hle E1). simpl. lia. }
  destruct (Qlt_bool (inject_Z opp * 0.9) (inject_Z team)) eqn:E2.
  { rewrite (above_mono _ _ _ Hle E2).
    destruct (Qlt_bool (inject_Z opp * 1.1) (inject_Z team')); simpl; lia. }
  destruct (Qlt_bool (inject_Z opp * 0.7) (inject_Z team)) eqn:E3.
  { rewrite (above_mono _ _ _ Hle E3).
    destruct (Qlt_bool (inject_Z opp * 1.1) (inject_Z team'));
      [|destruct (Qlt_bool (inject_Z opp * 0.9) (inject_Z team'))]; simpl; lia. }
  simpl. lia.
Qed.

Lemma matchOutcome_monotone_witness :
  fst (matchOutcome 40 50 tier1) = DRAW /\
  fst (matchOutcome 60 50 tier1) = DOMINANT_WIN /\
  (rank (fst (matchOutcome 40 50 tier1)) <= rank (fst (matchOutcome 60 50 tier1)))%nat.
Proof.
  split; [reflexivity|]. split; [reflexivity|].
  apply (matchOutcome_monotone 40 60 50 tier1). lia.
Defined.

(** ** Roster *)

Lemma length_mapIndexFrom {A B : Type} (f : A -> nat -> B) (xs : list A) (i : nat) :
  List.length (mapIndexFrom f i xs) = List.length xs.
Proof.
  revert i. induction xs as [|x xs IH]; intros i; simpl.
  - reflexivity.
  - rewrite IH. reflexivity.
Qed.

Lemma nth_error_mapIndexFrom {A B : Type} (f : A -> nat -> B) (xs : list A) (i j : nat) :
  nth_error (mapIndexFrom f i xs) j =
  option_map (fun x => f x (i + j)%nat) (nth_error xs j).
Proof.
  revert i j. induction xs as [|x xs IH]; intros i j.
  - destruct j; reflexivity.
  - destruct j as [|j]; simpl.
    + rewrite Nat.add_0_r. reflexivity.
    + rewrite IH. replace (S i + j)%nat with (i + S j)%nat by lia. reflexivity.
Qed.

Lemma nth_error_mapIndex {A B : Type} (f : A -> nat -> B) (xs : list A) (j : nat) :
  nth_error (mapIndex f xs) j = option_map (fun x => f x j) (nth_error xs j).
Proof. unfold mapIndex. rewrite nth_error_mapIndexFrom. reflexivity. Qed.

Lemma trainPlayerInSlot_length (i : nat) (s : State) :
  List.length (players (fst (trainPlayerInSlot i s))) = List.length (players s).
Proof.
  unfold trainPlayerInSlot.
  destruct (nth_error (players s) i) as [p|]; [|reflexivity].
  destruct (Qle_bool (inject_Z (overall p * 5)) (money s)); [|reflexivity].
  simpl. apply length_mapIndexFrom.
Qed.

Lemma recruitNewPlayerInSlot_length (d : Draws) (i : nat) (s : State) :
  List.length (players (fst (recruitNewPlayerInSlot d i s))) = List.length (players s).
Proof.
  unfold recruitNewPlayerInSlot.
  destruct (nth_error (players s) i) as [p|]; [|reflexivity].
  cbv zeta.
  destruct (Qle_bool _ (money s)); [|reflexivity].
  simpl. apply length_mapIndexFrom.
Qed.

(** C8.  Training and recruiting keep the length of the roster.  Under
    training no slot's overall or value goes down.  When the player in the
    slot costs no more than the money at hand, training adds exactly 1 to
    their overall and 100 to their value, takes [overall * 5] from the money
    and leaves the other slots as they were; when it costs more, nothing
    changes. *)
Theorem train_recruit_roster (d : Draws) (i : nat) (s : State) :
  List.length (players (fst (trainPlayerInSlot i s))) = List.length (players s) /\
  List.length (players (fst (recruitNewPlayerInSlot d i s))) = List.length (players s) /\
  (forall j p p',
     nth_error (players s) j = Some p ->
     nth_error (players (fst (trainPlayerInSlot i s))) j = Some p' ->
     overall p <= overall p' /\ value p <= value p') /\
  (forall p,
     nth_error (players s) i = Some p ->
     (inject_Z (overall p * 5) <= money s)%Q ->
     nth_error (players (fst (trainPlayerInSlot i s))) i = Some (trained p) /\
     overall (trained p) = overall p + 1 /\
     value (trained p) = value p + 100 /\
     money (fst (trainPlayerInSlot i s)) = (money s - inject_Z (overall p * 5))%Q /\
     forall j, j <> i ->
       nth_error (players (fst (trainPlayerInSlot i s))) j = nth_error (players s) j) /\
  (forall p,
     nth_error (players s) i = Some p ->
     (money s < inject_Z (overall p * 5))%Q ->
     fst (trainPlayerInSlot i s) = s).
Proof.
  split; [apply trainPlayerInSlot_length|].
  split; [apply recruitNewPlayerInSlot_length|].
  split; [|split].
  - intros j p p' Hp Hp'. unfold trainPlayerInSlot in Hp'.
    destruct (nth_error (players s) i) as [q|] eqn:Hq.
    + destruct (Qle_bool (inject_Z (overall q * 5)) (money s)).
      * simpl in Hp'. rewrite nth_error_mapIndex, Hp in Hp'. simpl in Hp'.
        destruct (Nat.eqb j i); inversion Hp'; subst p'; simpl; lia.
      * simpl in Hp'. rewrite Hp in Hp'. inversion Hp'. subst p'. lia.
    + simpl in Hp'. rewrite Hp in Hp'. inversion Hp'. subst p'. lia.
  - intros p Hp Hm. unfold trainPlayerInSlot. rewrite Hp.
    apply Qle_bool_iff in Hm. cbv zeta. rewrite Hm. simpl.
    split.
    { rewrite nth_error_mapIndex, Hp. simpl. rewrite Nat.eqb_refl. reflexivity. }
    split; [reflexivity|]. split; [reflexivity|]. split; [reflexivity|].
    intros j Hj. rewrite nth_error_mapIndex.
    destruct (nth_error (players s) j) as [q|]; [|reflexivity].
    simpl. apply Nat.eqb_neq in Hj. rewrite Hj. reflexivity.
  - intros p Hp Hm. unfold trainPlayerInSlot. rewrite Hp. cbv zeta.
    destruct (Qle_bool (inject_Z (overall p * 5)) (money s)) eqn:E; [|reflexivity].
    exfalso. apply Qle_bool_iff in E. exact (Qlt_not_le _ _ Hm E).
Qed.

Lemma train_recruit_roster_witness :
  nth_error (players (fst (trainPlayerInSlot 0 trainingCamp))) 0 =
    Some (mkPlayer "1" "Liam A" 61 6100 GK) /\
  money (fst (trainPlayerInSlot 0 trainingCamp)) = (300 - 300)%Q /\
  nth_error (players (fst (trainPlayerInSlot 0 trainingCamp))) 1 =
    Some (mkPlayer "2" "Noah B" 55 5500 DEF).
Proof.
  destruct (train_recruit_roster (mkDraws 0 0 0 "0") 0 trainingCamp)
    as (_ & _ & _ & H & _).
  assert (Hm : (inject_Z (60 * 5) <= money trainingCamp)%Q)
    by (vm_compute; discriminate).
  destruct (H (mkPlayer "1" "Liam A" 60 6000 GK) eq_refl Hm)
    as (H1 & _ & _ & H4 & H5).
  split; [exact H1|]. split; [exact H4|].
  rewrite (H5 1%nat); [reflexivity | lia].
Defined.

(** ** The match timer *)

Lemma timerInv_firstRender (lvl : Z) (ps : list Player) : timerInv (firstRender lvl ps).
Proof.
  constructor; simpl.
  - unfold MATCH_DURATION_SECONDS. lia.
  - discriminate.
  - intros _. split; reflexivity.
Qed.

Lemma mount_firstRender (st : Stored) (fresh : list Player) (s : State) :
  mount st fresh = Returned s -> exists lvl ps, s = firstRender lvl ps.
Proof.
  rewrite mount_initialState.
  destruct st as [| | |b]; simpl; intros H; inversion H;
    do 2 eexists; unfold firstRender; reflexivity.
Qed.

Lemma timerInv_mount (st : Stored) (fresh : list Player) (s : State) :
  mount st fresh = Returned s -> timerInv s.
Proof.
  intros H. destruct (mount_firstRender _ _ _ H) as (lvl & ps & ->).
  apply timerInv_firstRender.
Qed.

(** An action that leaves the timer cells alone and keeps the roster
    non-empty preserves the invariant. *)
Lemma timerInv_frame (s s' : State) :
  timerInv s ->
  matchInProgress s' = matchInProgress s ->
  matchTimeLeft s' = matchTimeLeft s ->
  matchIntervalRef s' = matchIntervalRef s ->
  intervals s' = intervals s ->
  List.length (players s') = List.length (players s) ->
  timerInv s'.
Proof.
  intros [Hr Hrun Hidle] E1 E2 E3 E4 E5.
  constructor; rewrite ?E1, ?E2, ?E3, ?E4.
  - exact Hr.
  - intros H. destruct (Hrun H) as (Hi & Ht & Hp).
    repeat split; try assumption.
    intros Hnil. apply Hp. rewrite Hnil in E5.
    destruct (players s); [reflexivity | discriminate E5].
  - exact Hidle.
Qed.

Lemma timerInv_startMatch (s : State) : timerInv s -> timerInv (fst (startMatch s)).
Proof.
  intros Hinv. unfold startMatch.
  destruct (Nat.eqb (List.length (players s)) 0) eqn:El; [exact Hinv|].
  destruct (matchInProgress s) eqn:Ep; [exact Hinv|].
  destruct (inv_idle s Hinv Ep) as [Hi Hr].
  constructor; simpl.
  - unfold MATCH_DURATION_SECONDS. lia.
  - intros _. rewrite Hi. simpl. repeat split.
    + eauto.
    + unfold MATCH_DURATION_SECONDS. lia.
    + intros Hnil. rewrite Hnil in El. discriminate El.
  - discriminate.
Qed.

(** In a state with a match in progress the only interval that can fire is
    the one the ref names. *)
Lemma matchTick_running (i : nat) (cl : Closure) (r : Q) (s : State) :
  intervals s = [(i, cl)] ->
  matchTick i r s =
    let newTime := matchTimeLeft s - 1 in
    let s1 := setMatchProgress (progressAt newTime) s in
    if newTime <=? 0 then finishMatch cl r (setMatchTimeLeft 0 s1)
    else (setMatchTimeLeft newTime s1, None).
Proof.
  intros Hi. unfold matchTick. rewrite Hi. simpl. rewrite Nat.eqb_refl. reflexivity.
Qed.

Lemma finishMatch_timer (cl : Closure) (r : Q) (s : State) (i : nat) (cl' : Closure) :
  intervals s = [(i, cl')] ->
  matchIntervalRef s = Some i ->
  let s' := fst (finishMatch cl r s) in
  matchInProgress s' = false /\
  matchTimeLeft s' = MATCH_DURATION_SECONDS /\
  intervals s' = [] /\
  matchIntervalRef s' = None /\
  matchProgress s' = matchProgress s /\
  players s' = players s.
Proof.
  intros Hi Hr. unfold finishMatch.
  assert (Hc :
    clearMatchInterval
      (setMatchTimeLeft MATCH_DURATION_SECONDS (setMatchInProgress false s)) =
    mkState (money s) (clickPower s) (stadiumCapacity s) (passiveIncomePerSecond s)
      (currentLeagueLevel s) (players s) false MATCH_DURATION_SECONDS
      (matchProgress s) None [] (nextIntervalId s)).
  { unfold clearMatchInterval. simpl. rewrite Hr. simpl. rewrite Hi. simpl.
    rewrite Nat.eqb_refl. reflexivity. }
  rewrite Hc.
  destruct (teamOverallOf (cl_players cl) =? 0); [simpl; tauto|].
  destruct (findTier (cl_level cl)); simpl; tauto.
Qed.

Lemma timerInv_matchTick (i : nat) (r : Q) (s : State) :
  timerInv s -> timerInv (fst (matchTick i r s)).
Proof.
  intros Hinv.
  destruct (matchInProgress s) eqn:Ep.
  - destruct (inv_running s Hinv Ep) as ((i0 & cl & Hi & Hr) & Ht & Hp).
    destruct (Nat.eqb i0 i) eqn:Eid.
    + apply Nat.eqb_eq in Eid. subst i0.
      rewrite (matchTick_running i cl r s Hi). cbv zeta.
      pose proof (inv_range s Hinv) as Hrange.
      destruct (matchTimeLeft s - 1 <=? 0) eqn:Et.
      * destruct (finishMatch_timer cl r
                    (setMatchTimeLeft 0
                       (setMatchProgress (progressAt (matchTimeLeft s - 1)) s))
                    i cl Hi Hr)
          as (F1 & F2 & F3 & F4 & F5 & F6).
        constructor.
        -- rewrite F2. unfold MATCH_DURATION_SECONDS. lia.
        -- rewrite F1. discriminate.
        -- intros _. split; assumption.
      * apply Z.leb_gt in Et.
        constructor; simpl.
        -- lia.
        -- intros _. repeat split; eauto. lia.
        -- rewrite Ep. discriminate.
    + unfold matchTick. rewrite Hi. simpl. rewrite Eid. exact Hinv.
  - destruct (inv_idle s Hinv Ep) as [Hi _].
    unfold matchTick. rewrite Hi. exact Hinv.
Qed.

Lemma timerInv_perform (a : Action) (s : State) : timerInv s -> timerInv (perform a s).
Proof.
  intros Hinv. destruct a as [| | |d i|i| |i r| | |fresh|fresh]; cbn [perform].
  - apply (timerInv_frame s); auto.
  - unfold buyClickPowerUpgrade.
    destruct (Qle_bool _ (money s)); [|exact Hinv].
    apply (timerInv_frame s); auto.
  - unfold buyStadiumUpgrade.
    destruct (Qle_bool _ (money s)); [|exact Hinv].
    apply (timerInv_frame s); auto.
  - apply (timerInv_frame s); auto using recruitNewPlayerInSlot_length;
      unfold recruitNewPlayerInSlot;
      (destruct (nth_error (players s) i) as [p|]; [|reflexivity]); cbv zeta;
      (destruct (Qle_bool _ (money s)); reflexivity).
  - apply (timerInv_frame s); auto using trainPlayerInSlot_length;
      unfold trainPlayerInSlot;
      (destruct (nth_error (players s) i) as [p|]; [|reflexivity]); cbv zeta;
      (destruct (Qle_bool _ (money s)); reflexivity).
  - apply timerInv_startMatch. exact Hinv.
  - apply timerInv_matchTick. exact Hinv.
  - apply (timerInv_frame s); auto.
  - unfold promoteLeague.
    destruct (findTier (currentLeagueLevel s + 1)) as [t|]; [|exact Hinv].
    cbv zeta.
    destruct (Qlt_bool (money s) _); [exact Hinv|].
    destruct (_ <? _); [exact Hinv|].
    apply (timerInv_frame s); auto.
  - rewrite mount_initialState. simpl. apply timerInv_firstRender.
  - rewrite mount_initialState. simpl. apply timerInv_firstRender.
Qed.

Lemma reachable_timerInv (s : State) : reachable s -> timerInv s.
Proof.
  induction 1 as [st fresh s H | a s _ IH].
  - exact (timerInv_mount _ _ _ H).
  - apply timerInv_perform. exact IH.
Qed.

Lemma progressAt_0 : (progressAt 0 == 100)%Q.
Proof. reflexivity. Qed.

Lemma progressAt_duration : (progressAt MATCH_DURATION_SECONDS == 0)%Q.
Proof. reflexivity. Qed.



Lemma kickOff_reachable : reachable kickOff.
Proof. apply (reach_step StartMatch), reachable_newGame. Qed.


(** C10.  In a reachable state with a match in progress [startMatch] shows
    no alert and returns the state it was given: no cell changes and the
    one interval of the match stays the only one. *)
Theorem startMatch_in_progress_noop (s : State) :
  reachable s ->
  matchInProgress s = true ->
  startMatch s = (s, None) /\
  List.length (intervals (fst (startMatch s))) = 1%nat.
Proof.
  intros Hreach Ep.
  destruct (inv_running s (reachable_timerInv s Hreach) Ep)
    as ((i & cl & Hi & _) & _ & Hps).
  assert (E : startMatch s = (s, None)).
  { unfold startMatch.
    destruct (players s) as [|p ps]; [congruence|].
    simpl. rewrite Ep. reflexivity. }
  rewrite E. split; [reflexivity|]. simpl. rewrite Hi. reflexivity.
Qed.

Lemma startMatch_in_progress_noop_witness :
  startMatch kickOff = (kickOff, None) /\
  List.length (intervals kickOff) = 1%nat.
Proof.
  destruct (startMatch_in_progress_noop kickOff kickOff_reachable eq_refl) as [H _].
  split; [exact H | reflexivity].
Defined.

(** Without the assumption of reachability the state is still returned as
    it was; an empty roster makes the handler show its alert first. *)
Lemma startMatch_in_progress_state (s : State) :
  matchInProgress s = true -> fst (startMatch s) = s.
Proof.
  intros Ep. unfold startMatch.
  destruct (Nat.eqb (List.length (players s)) 0); [reflexivity|].
  rewrite Ep. reflexivity.
Qed.

(** ** Persistence *)

Lemma orZ_Some (v d : Z) : v <> 0 -> orZ (Some v) d = v.
Proof. intros H. unfold orZ. apply Z.eqb_neq in H. rewrite H. reflexivity. Qed.

Lemma orQ_Some_0 (v : Q) : (orQ (Some v) 0 == v)%Q.
Proof.
  unfold orQ. destruct (Qeq_bool v 0) eqn:E; [|reflexivity].
  apply Qeq_bool_iff in E. symmetry. exact E.
Qed.

Lemma orBool_Some_false (v : bool) : orBool (Some v) false = v.
Proof. destruct v; reflexivity. Qed.

(** Effect 4 on what effect 3 stored for [s], taken on its own: the saved
    cells come back, as long as none of those read with [|| default] holds a
    0 that is not its default. *)
Lemma rehydrate_saveEffect (s : State) (fresh : list Player) :
  clickPower s <> 0 ->
  stadiumCapacity s <> 0 ->
  currentLeagueLevel s <> 0 ->
  matchTimeLeft s <> 0 ->
  exists s',
    rehydrate (saveEffect s) fresh = Returned s' /\
    (money s' == money s)%Q /\
    clickPower s' = clickPower s /\
    stadiumCapacity s' = stadiumCapacity s /\
    (passiveIncomePerSecond s' == passiveIncomePerSecond s)%Q /\
    players s' = players s /\
    matchInProgress s' = matchInProgress s /\
    matchTimeLeft s' = matchTimeLeft s /\
    currentLeagueLevel s' = currentLeagueLevel s.
Proof.
  intros Hc Hs Hl Ht. unfold rehydrate, saveEffect, initialState, loadEffect.
  cbn [b_money b_clickPower b_stadiumCapacity b_passiveIncomePerSecond b_players
       b_matchInProgress b_matchTimeLeft b_currentLeagueLevel orPlayers].
  rewrite (orZ_Some _ _ Hc), (orZ_Some _ _ Hs), (orZ_Some _ _ Hl), (orZ_Some _ _ Ht).
  rewrite orBool_Some_false.
  destruct (resumable _); eexists; (split; [reflexivity|]); simpl;
    repeat split; apply orQ_Some_0.
Qed.

(** Mounting on what effect 3 stored for [s]: effect 3 runs again first, on
    the state of the first render, so effect 4 reads the constants of that
    render.  Only the league level and the roster, which the initialisers
    read during the render, come from the saved game. *)
Lemma mount_saveEffect (s : State) (fresh : list Player) :
  mount (saveEffect s) fresh =
  Returned (firstRender (orZ (Some (currentLeagueLevel s)) 1) (players s)).
Proof. rewrite mount_initialState. reflexivity. Qed.

(** C4, at a failing input.  After one ticket sale in a new game the money
    is 1 and is stored as 1; a reload of the page brings back 0. *)
Theorem reload_loses_saved_cells :
  reachable afterSale /\
  money afterSale = 1%Q /\
  saveEffect afterSale =
    Parsed (mkBlob (Some 1%Q) (Some 1) (Some 100) (Some 0%Q) (Some lineup420)
              (Some false) (Some 300) (Some 1)) /\
  (forall fresh, money (perform (Reload fresh) afterSale) = 0%Q).
Proof.
  split; [apply (reach_step SellTickets), reachable_newGame|].
  split; [reflexivity|]. split; [reflexivity|].
  intros fresh; reflexivity.
Qed.

(** Effect 4 given a stored match with time left, taken on its own: the
    remaining time is the stored one, the progress is computed from it, and
    one interval ticks. *)
Lemma rehydrate_resumes (b : Blob) (fresh : list Player) (t : Z) :
  b_matchInProgress b = Some true ->
  b_matchTimeLeft b = Some t ->
  0 < t ->
  exists s,
    rehydrate (Parsed b) fresh = Returned s /\
    matchInProgress s = true /\
    matchTimeLeft s = t /\
    matchProgress s = progressAt t /\
    intervals s = [(0%nat, closureOf s)].
Proof.
  intros Hp Ht Hpos. unfold rehydrate, initialState, loadEffect, resumable.
  rewrite Hp, Ht.
  assert (E : (0 <? t) = true) by (apply Z.ltb_lt; exact Hpos). rewrite E.
  eexists. split; [reflexivity|]. simpl.
  assert (E0 : (t =? 0) = false) by (apply Z.eqb_neq; lia). rewrite E0.
  repeat split.
Qed.

(** C3, at failing inputs.  A match with 120 seconds left is stored as in
    progress; after a reload no match is in progress, the remaining time is
    the full 300 and no interval ticks.  Effect 4 given a stored match in
    progress with 0 seconds left, taken on its own, leaves a match in
    progress with 300 seconds left and no interval: no tick can fire, and
    [startMatch] returns at once, so the match never completes. *)
Theorem reload_drops_running_match :
  reachable midMatch /\
  matchInProgress midMatch = true /\
  matchTimeLeft midMatch = 120 /\
  (forall fresh,
     matchInProgress (perform (Reload fresh) midMatch) = false /\
     matchTimeLeft (perform (Reload fresh) midMatch) = 300 /\
     intervals (perform (Reload fresh) midMatch) = []) /\
  (forall fresh,
     rehydrate (Parsed expiredBlob) fresh = Returned stalled /\
     matchInProgress stalled = true /\
     matchTimeLeft stalled = 300 /\
     intervals stalled = [] /\
     (forall i r, matchTick i r stalled = (stalled, None)) /\
     startMatch stalled = (stalled, None)).
Proof.
  split; [apply reachable_performAll, reachable_newGame|].
  split; [vm_compute; reflexivity|]. split; [vm_compute; reflexivity|].
  split.
  - intros fresh. cbn [perform]. rewrite mount_saveEffect. cbn [orStay].
    split; [reflexivity|]. split; reflexivity.
  - intros fresh. split; [reflexivity|].
    split; [reflexivity|]. split; [reflexivity|]. split; [reflexivity|].
    split; [intros i r; reflexivity | reflexivity].
Qed.

(** ** Missing and corrupt saves *)

(** Effect 4 on an empty [localStorage], taken on its own, sets the passive
    income to [stadiumCapacity / 100].  When the component mounts, effect 3
    has stored a game before effect 4 looks, so this branch is not taken
    then. *)
Lemma loadEffect_Absent (s : State) :
  loadEffect Absent s =
  Returned (setPassiveIncomePerSecond (inject_Z (stadiumCapacity s) / 100) s).
Proof. reflexivity. Qed.

(** C9, counterexample.  A stored text that [JSON.parse] rejects makes the
    initialiser of [currentLeagueLevel] throw during the first render;
    nothing catches it and no state results.  The stored text [null] parses,
    and the same initialiser throws when it reads a field of it. *)
Lemma mount_unparseable_throws :
  mount Unparseable lineup420 = SyntaxError /\
  ~ (exists s, mount Unparseable lineup420 = Returned s) /\
  mount ParsedNull lineup420 = TypeError /\
  ~ (exists s, mount ParsedNull lineup420 = Returned s).
Proof.
  split; [reflexivity|]. split; [intros [s H]; discriminate H|].
  split; [reflexivity|]. intros [s H]. discriminate H.
Qed.

(** C9, amended.  On an empty [localStorage] the component mounts without
    error with money 0, click power 1, stadium capacity 100, passive income
    0, league level 1, no match in progress, 300 seconds and the freshly
    generated roster.  On a stored value whose fields can be read it mounts
    without error too, and each field the value lacks has its default: 0, 1,
    100, 0, the fresh roster, false, 300, 1; the same holds of the load code
    taken on its own, where effect 4 reads the stored value itself. *)
Theorem missing_fields_default (b : Blob) (fresh : list Player) :
  (exists s, mount Absent fresh = Returned s /\ absentDefaults fresh s) /\
  (exists s, mount (Parsed b) fresh = Returned s /\ missingDefaults b fresh s) /\
  (exists s, rehydrate (Parsed b) fresh = Returned s /\ missingDefaults b fresh s).
Proof.
  split; [eexists; split; [reflexivity | repeat split]|].
  split.
  - rewrite mount_initialState. eexists. split; [reflexivity|].
    unfold missingDefaults. simpl.
    repeat split; try reflexivity; intros H; rewrite H; reflexivity.
  - unfold rehydrate, initialState, loadEffect.
    destruct (resumable b); eexists; (split; [reflexivity|]);
      unfold missingDefaults; simpl;
      repeat split; intros H; rewrite H; reflexivity.
Qed.

Lemma missing_fields_default_witness :
  exists s,
    mount (Parsed emptyBlob) lineup420 = Returned s /\
    money s = 0%Q /\ clickPower s = 1 /\ stadiumCapacity s = 100 /\
    passiveIncomePerSecond s = 0%Q /\ players s = lineup420 /\
    matchInProgress s = false /\ matchTimeLeft s = 300 /\
    currentLeagueLevel s = 1.
Proof.
  destruct (missing_fields_default emptyBlob lineup420)
    as (_ & (s & Hs & H1 & H2 & H3 & H4 & H5 & H6 & H7 & H8) & _).
  exists s. split; [exact Hs|].
  split; [exact (H1 eq_refl)|]. split; [exact (H2 eq_refl)|].
  split; [exact (H3 eq_refl)|]. split; [exact (H4 eq_refl)|].
  split; [exact (H5 eq_refl)|]. split; [exact (H6 eq_refl)|].
  split; [exact (H7 eq_refl) | exact (H8 eq_refl)].
Defined.

(** * Further properties *)

(** ** The player generator *)

Lemma Qfloor_scaled (r : Q) (n : Z) :
  unitInterval r -> 0 < n -> 0 <= Qfloor (r * inject_Z n) < n.
Proof.
  intros [H0 H1] Hn.
  assert (Hq : (0 < inject_Z n)%Q)
    by (change (inject_Z 0 < inject_Z n)%Q; rewrite <- Zlt_Qlt; exact Hn).
  split.
  - rewrite <- (Qfloor_Z 0). apply Qfloor_resp_le.
    apply Qmult_le_0_compat; [exact H0 | apply Qlt_le_weak; exact Hq].
  - rewrite Zlt_Qlt.
    apply Qle_lt_trans with (r * inject_Z n)%Q; [apply Qfloor_le|].
    rewrite <- (Qmult_1_l (inject_Z n)) at 2.
    apply Qmult_lt_compat_r; assumption.
Qed.

Lemma generateRandomPlayer_overall (d : Draws) (minOverall maxOverall : Z) (pos : Position) :
  unitInterval (d_overall d) ->
  minOverall <= maxOverall ->
  minOverall <= overall (generateRandomPlayer d minOverall maxOverall pos) <= maxOverall.
Proof.
  intros Hr Hmm. unfold generateRandomPlayer. cbn [overall].
  pose proof (Qfloor_scaled (d_overall d) (maxOverall - minOverall + 1) Hr) as H.
  lia.
Qed.

(** X1.  With a draw in [0, 1) and [minOverall <= maxOverall] the generated
    player has an overall between the two bounds, a value of 100 times the
    overall, the position asked for and the identifier drawn. *)
Theorem generateRandomPlayer_in_range (d : Draws) (minOverall maxOverall : Z)
    (pos : Position) :
  unitInterval (d_overall d) ->
  minOverall <= maxOverall ->
  let p := generateRandomPlayer d minOverall maxOverall pos in
  minOverall <= overall p <= maxOverall /\
  value p = overall p * 100 /\
  position p = pos /\
  id p = d_id d.
Proof.
  intros Hr Hmm p. split; [apply generateRandomPlayer_overall; assumption|].
  repeat split.
Qed.

Lemma generateRandomPlayer_in_range_witness :
  50 <= overall (generateRandomPlayer middleDraws 50 60 GK) <= 60 /\
  value (generateRandomPlayer middleDraws 50 60 GK) = 5500.
Proof.
  assert (Hr : unitInterval (d_overall middleDraws))
    by (split; vm_compute; [discriminate | reflexivity]).
  assert (Hmm : 50 <= 60) by lia.
  destruct (generateRandomPlayer_in_range middleDraws 50 60 GK Hr Hmm) as (H & _).
  split; [exact H | reflexivity].
Defined.

(** X2.  With draws in [0, 1) the generated name is one of the twenty first
    names, a space and one capital letter from A to Z. *)
Theorem generateRandomPlayer_name (d : Draws) (minOverall maxOverall : Z) (pos : Position) :
  fairDraws d ->
  exists (first : string) (code : nat),
    In first names /\
    (65 <= code <= 90)%nat /\
    name (generateRandomPlayer d minOverall maxOverall pos) =
      (first ++ " " ++ String (ascii_of_nat code) "")%string.
Proof.
  intros (Hn & _ & Hi). unfold generateRandomPlayer. cbn [name].
  pose proof (Qfloor_scaled (d_name d) (Z.of_nat (List.length names)) Hn) as H1.
  pose proof (Qfloor_scaled (d_initial d) 26 Hi) as H2.
  change (inject_Z 26) with 26%Q in H2.
  eexists. eexists. split; [|split; [|reflexivity]].
  - apply nth_In. change (List.length names) with 20%nat in *. lia.
  - lia.
Qed.

Lemma generateRandomPlayer_name_witness :
  exists (first : string) (code : nat),
    In first names /\
    (65 <= code <= 90)%nat /\
    name (generateRandomPlayer middleDraws 50 60 GK) =
      (first ++ " " ++ String (ascii_of_nat code) "")%string.
Proof.
  assert (Hf : fairDraws middleDraws)
    by (repeat split; vm_compute; try discriminate; reflexivity).
  exact (generateRandomPlayer_name middleDraws 50 60 GK Hf).
Defined.

(** X3.  When the seven overall draws are in [0, 1), a new lineup has seven
    players in the positions GK, DEF, DEF, MID, MID, FWD, FWD, each within
    the range of their slot and worth 100 times their overall, and its
    summed overall is between 370 and 440. *)
Theorem generateInitialLineup_shape (d1 d2 d3 d4 d5 d6 d7 : Draws) :
  unitInterval (d_overall d1) -> unitInterval (d_overall d2) ->
  unitInterval (d_overall d3) -> unitInterval (d_overall d4) ->
  unitInterval (d_overall d5) -> unitInterval (d_overall d6) ->
  unitInterval (d_overall d7) ->
  let lineup := generateInitialLineup (d1, d2, d3, d4, d5, d6, d7) in
  List.length lineup = 7%nat /\
  map position lineup = [GK; DEF; DEF; MID; MID; FWD; FWD] /\
  Forall (fun p => 45 <= overall p <= 70 /\ value p = overall p * 100) lineup /\
  370 <= teamOverallOf lineup <= 440.
Proof.
  intros H1 H2 H3 H4 H5 H6 H7 lineup.
  pose proof (generateRandomPlayer_overall d1 50 60 GK H1 ltac:(lia)) as B1.
  pose proof (generateRandomPlayer_overall d2 45 55 DEF H2 ltac:(lia)) as B2.
  pose proof (generateRandomPlayer_overall d3 45 55 DEF H3 ltac:(lia)) as B3.
  pose proof (generateRandomPlayer_overall d4 55 65 MID H4 ltac:(lia)) as B4.
  pose proof (generateRandomPlayer_overall d5 55 65 MID H5 ltac:(lia)) as B5.
  pose proof (generateRandomPlayer_overall d6 60 70 FWD H6 ltac:(lia)) as B6.
  pose proof (generateRandomPlayer_overall d7 60 70 FWD H7 ltac:(lia)) as B7.
  subst lineup. unfold generateInitialLineup.
  split; [reflexivity|]. split; [reflexivity|]. split.
  - repeat constructor; lia.
  - unfold teamOverallOf. cbn [fold_left]. lia.
Qed.

Lemma generateInitialLineup_shape_witness :
  370 <= teamOverallOf
           (generateInitialLineup
              (middleDraws, middleDraws, middleDraws, middleDraws,
               middleDraws, middleDraws, middleDraws)) <= 440.
Proof.
  assert (Hr : unitInterval (d_overall middleDraws))
    by (split; vm_compute; [discriminate | reflexivity]).
  destruct (generateInitialLineup_shape middleDraws middleDraws middleDraws
              middleDraws middleDraws middleDraws middleDraws Hr Hr Hr Hr Hr Hr Hr)
    as (_ & _ & _ & H).
  exact H.
Defined.

(** ** Roster changes and the summed overall *)

Lemma teamOverallOf_acc (ps : list Player) (a : Z) :
  fold_left (fun sum p => sum + overall p) ps a = a + teamOverallOf ps.
Proof.
  unfold teamOverallOf. revert a. induction ps as [|p ps IH]; intros a; simpl.
  - lia.
  - rewrite (IH (a + overall p)), (IH (overall p)). lia.
Qed.

Lemma teamOverallOf_cons (p : Player) (ps : list Player) :
  teamOverallOf (p :: ps) = overall p + teamOverallOf ps.
Proof.
  unfold teamOverallOf at 1. simpl. apply teamOverallOf_acc.
Qed.

Lemma mapIndexFrom_miss (g : Player -> Player) (target k : nat) (ps : list Player) :
  (target < k)%nat ->
  mapIndexFrom (fun p idx => if Nat.eqb idx target then g p else p) k ps = ps.
Proof.
  revert k. induction ps as [|p ps IH]; intros k Hk; simpl.
  - reflexivity.
  - assert (E : Nat.eqb k target = false) by (apply Nat.eqb_neq; lia).
    rewrite E, IH by lia. reflexivity.
Qed.

Lemma teamOverallOf_replaceFrom (g : Player -> Player) (ps : list Player)
    (k i : nat) (old : Player) :
  nth_error ps i = Some old ->
  teamOverallOf
    (mapIndexFrom (fun p idx => if Nat.eqb idx (k + i) then g p else p) k ps) =
  teamOverallOf ps - overall old + overall (g old).
Proof.
  revert k i. induction ps as [|p ps IH]; intros k i Hi.
  - destruct i; discriminate Hi.
  - destruct i as [|i]; simpl in Hi.
    + inversion Hi. subst p. simpl. rewrite Nat.add_0_r, Nat.eqb_refl.
      rewrite mapIndexFrom_miss by lia.
      rewrite !teamOverallOf_cons. lia.
    + simpl.
      assert (E : Nat.eqb k (k + S i) = false) by (apply Nat.eqb_neq; lia).
      rewrite E. replace (k + S i)%nat with (S k + i)%nat by lia.
      rewrite !teamOverallOf_cons, (IH (S k) i Hi). lia.
Qed.

Lemma teamOverallOf_replace (g : Player -> Player) (ps : list Player)
    (i : nat) (old : Player) :
  nth_error ps i = Some old ->
  teamOverallOf (mapIndex (fun p idx => if Nat.eqb idx i then g p else p) ps) =
  teamOverallOf ps - overall old + overall (g old).
Proof.
  intros H. unfold mapIndex. exact (teamOverallOf_replaceFrom g ps 0 i old H).
Qed.

(** X4.  A recruitment that can be paid puts the generated player, of the
    old player's position and 5 to 15 overall points better, into the slot
    and nowhere else, takes the new player's value from the money and raises
    the summed overall by 5 to 15. *)
Theorem recruitNewPlayerInSlot_paid (d : Draws) (i : nat) (s : State) (old : Player) :
  nth_error (players s) i = Some old ->
  unitInterval (d_overall d) ->
  (inject_Z (value (generateRandomPlayer d (overall old + 5) (overall old + 15)
                      (position old))) <= money s)%Q ->
  let new := generateRandomPlayer d (overall old + 5) (overall old + 15) (position old) in
  let s' := fst (recruitNewPlayerInSlot d i s) in
  snd (recruitNewPlayerInSlot d i s) = Some (Recruited new old) /\
  nth_error (players s') i = Some new /\
  (forall j, j <> i -> nth_error (players s') j = nth_error (players s) j) /\
  money s' = (money s - inject_Z (value new))%Q /\
  overall old + 5 <= overall new <= overall old + 15 /\
  position new = position old /\
  teamOverallOf (players s) + 5 <= teamOverallOf (players s') <=
    teamOverallOf (players s) + 15.
Proof.
  intros Hi Hr Hm new s'.
  assert (Hb : overall old + 5 <= overall new <= overall old + 15)
    by (apply generateRandomPlayer_overall; [exact Hr | lia]).
  assert (E : recruitNewPlayerInSlot d i s =
              (setPlayers
                 (mapIndex (fun p index => if Nat.eqb index i then new else p) (players s))
                 (setMoney (money s - inject_Z (value new)) s),
               Some (Recruited new old))).
  { unfold recruitNewPlayerInSlot. rewrite Hi. cbv zeta. fold new.
    apply Qle_bool_iff in Hm. fold new in Hm. rewrite Hm. reflexivity. }
  subst s'. rewrite E. cbn [fst snd players money setPlayers setMoney].
  split; [reflexivity|]. split.
  { rewrite nth_error_mapIndex, Hi. simpl. rewrite Nat.eqb_refl. reflexivity. }
  split.
  { intros j Hj. rewrite nth_error_mapIndex.
    destruct (nth_error (players s) j); [|reflexivity].
    simpl. apply Nat.eqb_neq in Hj. rewrite Hj. reflexivity. }
  split; [reflexivity|]. split; [exact Hb|]. split; [reflexivity|].
  rewrite (teamOverallOf_replace (fun _ => new) (players s) i old Hi). lia.
Qed.

Lemma recruitNewPlayerInSlot_paid_witness :
  nth_error (players (fst (recruitNewPlayerInSlot middleDraws 0
                             (setMoney 7000 trainingCamp)))) 0 =
    Some (mkPlayer "42" "Mateo N" 70 7000 GK) /\
  money (fst (recruitNewPlayerInSlot middleDraws 0 (setMoney 7000 trainingCamp))) =
    (7000 - 7000)%Q.
Proof.
  assert (Hr : unitInterval (d_overall middleDraws))
    by (split; vm_compute; [discriminate | reflexivity]).
  assert (Hm : (inject_Z (value (generateRandomPlayer middleDraws (60 + 5) (60 + 15) GK))
                <= money (setMoney 7000 trainingCamp))%Q)
    by (vm_compute; discriminate).
  destruct (recruitNewPlayerInSlot_paid middleDraws 0 (setMoney 7000 trainingCamp)
              (mkPlayer "1" "Liam A" 60 6000 GK) eq_refl Hr Hm)
    as (_ & H2 & _ & H4 & _).
  split; [exact H2 | exact H4].
Defined.

(** X5.  Whatever the draw, a recruitment succeeds with money for the best
    candidate, [(overall + 15) * 100], and is refused, the state kept, when
    the recruit button is disabled, that is with less than
    [(overall + 5) * 100].  A slot outside the roster does nothing. *)
Theorem recruitNewPlayerInSlot_funds (d : Draws) (i : nat) (s : State) :
  unitInterval (d_overall d) ->
  (forall old,
     nth_error (players s) i = Some old ->
     (inject_Z ((overall old + 15) * 100) <= money s)%Q ->
     exists new, snd (recruitNewPlayerInSlot d i s) = Some (Recruited new old)) /\
  (forall old,
     nth_error (players s) i = Some old ->
     recruitButtonDisabled s old = true ->
     fst (recruitNewPlayerInSlot d i s) = s /\
     exists new, snd (recruitNewPlayerInSlot d i s) = Some (NotEnoughMoneyRecruit old new)) /\
  (nth_error (players s) i = None -> recruitNewPlayerInSlot d i s = (s, None)).
Proof.
  intros Hr. split; [|split].
  - intros old Hi Hm.
    pose proof (generateRandomPlayer_overall d (overall old + 5) (overall old + 15)
                  (position old) Hr ltac:(lia)) as Hb.
    unfold recruitNewPlayerInSlot. rewrite Hi. cbv zeta.
    set (new := generateRandomPlayer d (overall old + 5) (overall old + 15) (position old))
      in *.
    assert (Hv : (inject_Z (value new) <= money s)%Q).
    { apply Qle_trans with (inject_Z ((overall old + 15) * 100)); [|exact Hm].
      rewrite <- Zle_Qle. subst new. unfold generateRandomPlayer in *. cbn [value overall] in *.
      lia. }
    apply Qle_bool_iff in Hv. rewrite Hv. exists new. reflexivity.
  - intros old Hi Hd.
    pose proof (generateRandomPlayer_overall d (overall old + 5) (overall old + 15)
                  (position old) Hr ltac:(lia)) as Hb.
    unfold recruitNewPlayerInSlot. rewrite Hi. cbv zeta.
    set (new := generateRandomPlayer d (overall old + 5) (overall old + 15) (position old))
      in *.
    unfold recruitButtonDisabled in Hd. apply Qlt_bool_iff in Hd.
    destruct (Qle_bool (inject_Z (value new)) (money s)) eqn:E.
    + exfalso. apply Qle_bool_iff in E.
      assert (Hv : (inject_Z ((overall old + 5) * 100) <= inject_Z (value new))%Q).
      { rewrite <- Zle_Qle. subst new. unfold generateRandomPlayer in *.
        cbn [value overall] in *. lia. }
      apply (Qlt_irrefl (money s)).
      apply Qlt_le_trans with (inject_Z ((overall old + 5) * 100)); [exact Hd|].
      apply Qle_trans with (inject_Z (value new)); assumption.
    + split; [reflexivity | exists new; reflexivity].
  - intros Hi. unfold recruitNewPlayerInSlot. rewrite Hi. reflexivity.
Qed.

Lemma recruitNewPlayerInSlot_funds_witness :
  fst (recruitNewPlayerInSlot middleDraws 0 trainingCamp) = trainingCamp /\
  recruitNewPlayerInSlot middleDraws 5 trainingCamp = (trainingCamp, None).
Proof.
  assert (Hr : unitInterval (d_overall middleDraws))
    by (split; vm_compute; [discriminate | reflexivity]).
  destruct (recruitNewPlayerInSlot_funds middleDraws 0 trainingCamp Hr) as (_ & H & _).
  destruct (recruitNewPlayerInSlot_funds middleDraws 5 trainingCamp Hr) as (_ & _ & H').
  split.
  - apply (H (mkPlayer "1" "Liam A" 60 6000 GK) eq_refl). reflexivity.
  - apply H'. reflexivity.
Defined.

(** X6.  The train button of a player is enabled exactly when training them
    succeeds; a successful session raises the summed overall by exactly 1,
    a refused one keeps the state. *)
Theorem trainPlayerInSlot_button (i : nat) (s : State) (p : Player) :
  nth_error (players s) i = Some p ->
  (trainButtonDisabled s p = false ->
   snd (trainPlayerInSlot i s) = Some (Trained p) /\
   teamOverallOf (players (fst (trainPlayerInSlot i s))) = teamOverallOf (players s) + 1) /\
  (trainButtonDisabled s p = true ->
   trainPlayerInSlot i s = (s, Some (NotEnoughMoneyTrain p (overall p * 5)))).
Proof.
  intros Hi. unfold trainButtonDisabled, trainPlayerInSlot. rewrite Hi. cbv zeta.
  unfold Qlt_bool.
  destruct (Qle_bool (inject_Z (overall p * 5)) (money s)); cbn [negb].
  - split; [|discriminate]. intros _.
    cbn [fst snd players setPlayers setMoney]. split; [reflexivity|].
    etransitivity; [exact (teamOverallOf_replace trained (players s) i p Hi)|].
    unfold trained. cbn [overall]. lia.
  - split; [discriminate|]. intros _. reflexivity.
Qed.

Lemma trainPlayerInSlot_button_witness :
  teamOverallOf (players (fst (trainPlayerInSlot 0 trainingCamp))) = 116.
Proof.
  destruct (trainPlayerInSlot_button 0 trainingCamp (mkPlayer "1" "Liam A" 60 6000 GK)
              eq_refl) as [H _].
  destruct (H eq_refl) as [_ H']. rewrite H'. reflexivity.
Defined.

(** ** Purchases and the buttons that offer them *)

(** X7.  The click-power button is enabled exactly when the purchase goes
    through: then the power rises by 1 and [10 * clickPower] is paid; the
    stadium button likewise, the capacity rising by 100, the passive income
    becoming a hundredth of the new capacity and [50 * (capacity / 100)]
    being paid.  A disabled purchase keeps the state. *)
Theorem upgrade_buttons (s : State) :
  (clickPowerButtonDisabled s = false ->
   snd (buyClickPowerUpgrade s) = None /\
   clickPower (fst (buyClickPowerUpgrade s)) = clickPower s + 1 /\
   money (fst (buyClickPowerUpgrade s)) = (money s - inject_Z (10 * clickPower s))%Q) /\
  (clickPowerButtonDisabled s = true ->
   buyClickPowerUpgrade s = (s, Some NotEnoughMoneyTickets)) /\
  (stadiumButtonDisabled s = false ->
   snd (buyStadiumUpgrade s) = None /\
   stadiumCapacity (fst (buyStadiumUpgrade s)) = stadiumCapacity s + 100 /\
   passiveIncomePerSecond (fst (buyStadiumUpgrade s)) =
     (inject_Z (stadiumCapacity s + 100) / 100)%Q /\
   money (fst (buyStadiumUpgrade s)) =
     (money s - 50 * (inject_Z (stadiumCapacity s) / 100))%Q) /\
  (stadiumButtonDisabled s = true ->
   buyStadiumUpgrade s = (s, Some NotEnoughMoneyStadium)).
Proof.
  unfold clickPowerButtonDisabled, stadiumButtonDisabled, buyClickPowerUpgrade,
    buyStadiumUpgrade, Qlt_bool.
  cbv zeta.
  destruct (Qle_bool (inject_Z (10 * clickPower s)) (money s));
    destruct (Qle_bool (50 * (inject_Z (stadiumCapacity s) / 100)) (money s));
    cbn [negb]; repeat split; intros; try discriminate; reflexivity.
Qed.

Lemma upgrade_buttons_witness :
  clickPower (fst (buyClickPowerUpgrade trainingCamp)) = 2 /\
  stadiumCapacity (fst (buyStadiumUpgrade trainingCamp)) = 200 /\
  buyClickPowerUpgrade (newGame lineup420) = (newGame lineup420, Some NotEnoughMoneyTickets).
Proof.
  destruct (upgrade_buttons trainingCamp) as (H1 & _ & H3 & _).
  destruct (upgrade_buttons (newGame lineup420)) as (_ & H2 & _).
  destruct (H1 eq_refl) as (_ & Hc & _).
  destruct (H3 eq_refl) as (_ & Hs & _).
  split; [rewrite Hc; reflexivity|]. split; [rewrite Hs; reflexivity|].
  apply H2. reflexivity.
Defined.

Lemma findTier_table (l : Z) (t : LeagueTier) :
  findTier l = Some t ->
  In t LEAGUE_TIERS /\ level t = l /\ 1 <= l <= 4.
Proof.
  unfold findTier, LEAGUE_TIERS. cbn [find level].
  destruct (1 =? l) eqn:E1; [intros H; inversion H; apply Z.eqb_eq in E1; simpl; intuition lia|].
  destruct (2 =? l) eqn:E2; [intros H; inversion H; apply Z.eqb_eq in E2; simpl; intuition lia|].
  destruct (3 =? l) eqn:E3; [intros H; inversion H; apply Z.eqb_eq in E3; simpl; intuition lia|].
  destruct (4 =? l) eqn:E4; [intros H; inversion H; apply Z.eqb_eq in E4; simpl; intuition lia|].
  discriminate.
Qed.

Lemma findTier_outside (l : Z) : l < 1 \/ 4 < l -> findTier l = None.
Proof.
  intros H. destruct (findTier l) as [t|] eqn:E; [|reflexivity].
  apply findTier_table in E. lia.
Qed.

Lemma tier_requirements_nonzero (t : LeagueTier) :
  In t LEAGUE_TIERS ->
  (promotionCost t =? 0) = false /\ (promotionThresholdOverall t =? 0) = false.
Proof.
  unfold LEAGUE_TIERS. simpl.
  intros [H | [H | [H | [H | []]]]]; subst t; split; reflexivity.
Qed.

(** X8.  Where the promote button is shown, it is enabled exactly when the
    handler promotes, to the tier one level up; a disabled button means the
    handler would keep the state.  Where it is not shown, in the last
    league and above, the handler does nothing. *)
Theorem promote_button (s : State) :
  (promoteButtonRendered s = true ->
   (promoteButtonDisabled s = false ->
    exists next,
      snd (promoteLeague s) = Some (Promoted next) /\
      level next = currentLeagueLevel s + 1 /\
      currentLeagueLevel (fst (promoteLeague s)) = currentLeagueLevel s + 1) /\
   (promoteButtonDisabled s = true -> fst (promoteLeague s) = s)) /\
  (promoteButtonRendered s = false -> promoteLeague s = (s, None)).
Proof.
  unfold promoteButtonRendered, promoteButtonDisabled, promoteLeague.
  change (Z.of_nat (List.length LEAGUE_TIERS)) with 4. cbv zeta.
  split.
  - intros Hr. apply Z.ltb_lt in Hr.
    assert (E0 : (4 <=? currentLeagueLevel s) = false) by (apply Z.leb_gt; exact Hr).
    rewrite E0. cbn [orb].
    destruct (findTier (currentLeagueLevel s + 1)) as [t|] eqn:Ef.
    + destruct (findTier_table _ _ Ef) as (Hin & Hl & _).
      destruct (tier_requirements_nonzero t Hin) as [Ec Et].
      cbn [option_map orInfinity]. rewrite Ec, Et.
      destruct (Qlt_bool (money s) (inject_Z (promotionCost t))); cbn [orb].
      * split; [discriminate | reflexivity].
      * destruct (teamOverallOf (players s) <? promotionThresholdOverall t).
        -- split; [discriminate | reflexivity].
        -- split; [|discriminate]. intros _. exists t. repeat split. exact Hl.
    + cbn [option_map orInfinity orb]. split; [discriminate | reflexivity].
  - intros Hr. apply Z.ltb_ge in Hr.
    rewrite findTier_outside by lia. reflexivity.
Qed.

Lemma promote_button_witness :
  promoteButtonDisabled richStrongState = false /\
  currentLeagueLevel (fst (promoteLeague richStrongState)) = 2 /\
  promoteLeague (setCurrentLeagueLevel 4 richStrongState) =
    (setCurrentLeagueLevel 4 richStrongState, None).
Proof.
  destruct (promote_button richStrongState) as [H _].
  destruct (promote_button (setCurrentLeagueLevel 4 richStrongState)) as [_ H'].
  destruct (H eq_refl) as [H1 _].
  destruct (H1 eq_refl) as (next & _ & _ & Hl).
  split; [reflexivity|]. split; [rewrite Hl; reflexivity|].
  apply H'. reflexivity.
Defined.

(** X9.  Selling tickets [n] times adds [n] times the click power to the
    money and changes nothing else. *)
Theorem ticket_sales_add_up (n : nat) (s : State) :
  let s' := performAll (repeat SellTickets n) s in
  (money s' == money s + inject_Z (Z.of_nat n) * inject_Z (clickPower s))%Q /\
  setMoney (money s) s' = s.
Proof.
  revert s. induction n as [|n IH]; intros s; cbv zeta.
  - cbn [repeat performAll fold_left]. split.
    + change (inject_Z (Z.of_nat 0)) with 0%Q. ring.
    + destruct s; reflexivity.
  - cbn [repeat performAll fold_left perform handleTicketSaleClick fst].
    destruct (IH (setMoney (money s + inject_Z (clickPower s)) s)) as [Hm Hs].
    unfold performAll in Hm, Hs. split.
    + rewrite Hm. cbn [money clickPower setMoney].
      rewrite Nat2Z.inj_succ. unfold Z.succ. rewrite inject_Z_plus.
      change (inject_Z 1) with 1%Q. ring.
    + set (s' := fold_left _ _ _) in *.
      destruct s, s'. unfold setMoney in *. cbn in *.
      inversion Hs. reflexivity.
Qed.

(** ** The opponent and the result *)

Lemma sample_between (r lo hi : Q) :
  unitInterval r -> (lo < hi)%Q ->
  (lo <= r * (hi - lo) + lo)%Q /\ (r * (hi - lo) + lo < hi)%Q.
Proof.
  intros [H0 H1] Hlh. split; nra.
Qed.

Lemma tier_factors (t : LeagueTier) :
  In t LEAGUE_TIERS -> (0 < minFactor t)%Q /\ (minFactor t < maxFactor t)%Q.
Proof.
  unfold LEAGUE_TIERS. simpl.
  intros [H | [H | [H | [H | []]]]]; subst t; split; reflexivity.
Qed.

Lemma opponentOverallOf_bounds (r : Q) (team : Z) (t : LeagueTier) :
  unitInterval r -> 0 < team -> In t LEAGUE_TIERS ->
  Qfloor (inject_Z team * minFactor t) <= opponentOverallOf r team t /\
  (inject_Z (opponentOverallOf r team t) < inject_Z team * maxFactor t)%Q.
Proof.
  intros Hr Hteam Hin.
  destruct (tier_factors t Hin) as [Hmin Hlt].
  assert (HT : (0 < inject_Z team)%Q)
    by (change (inject_Z 0 < inject_Z team)%Q; rewrite <- Zlt_Qlt; exact Hteam).
  assert (Hlh : (inject_Z team * minFactor t < inject_Z team * maxFactor t)%Q) by nra.
  destruct (sample_between r _ _ Hr Hlh) as [Hlo Hhi].
  unfold opponentOverallOf. split.
  - apply Qfloor_resp_le. exact Hlo.
  - eapply Qle_lt_trans; [apply Qfloor_le | exact Hhi].
Qed.

(** X11.  With the tiers of the table no match is lost: in leagues 1 and 2
    every match is a dominant win, in league 3 a dominant win or a win, in
    league 4 a win or a draw. *)
Theorem match_never_lost (r : Q) (team lvl : Z) (t : LeagueTier) :
  unitInterval r ->
  0 < team ->
  findTier lvl = Some t ->
  let c := fst (matchOutcome team (opponentOverallOf r team t) t) in
  c <> LOSS /\
  (lvl = 1 \/ lvl = 2 -> c = DOMINANT_WIN) /\
  (lvl = 3 -> c = DOMINANT_WIN \/ c = WIN) /\
  (lvl = 4 -> c = WIN \/ c = DRAW).
Proof.
  intros Hr Hteam Hf.
  destruct (findTier_table lvl t Hf) as (Hin & Hl & _).
  destruct (opponentOverallOf_bounds r team t Hr Hteam Hin) as [Hlo Hhi].
  assert (HT : (0 < inject_Z team)%Q)
    by (change (inject_Z 0 < inject_Z team)%Q; rewrite <- Zlt_Qlt; exact Hteam).
  set (opp := opponentOverallOf r team t) in *.
  unfold LEAGUE_TIERS in Hin. simpl in Hin.
  destruct Hin as [H | [H | [H | [H | []]]]]; subst t; cbn [level] in Hl; subst lvl;
    cbn [minFactor maxFactor] in Hlo, Hhi; cbv zeta.
  - rewrite matchOutcome_dominant by lra. cbn [fst].
    repeat split; try discriminate; intros; lia.
  - rewrite matchOutcome_dominant by lra. cbn [fst].
    repeat split; try discriminate; intros; lia.
  - destruct (Qlt_le_dec (inject_Z opp * 1.1) (inject_Z team)) as [Hd | Hd].
    + rewrite matchOutcome_dominant by exact Hd. cbn [fst].
      repeat split; try discriminate; intros; try lia. left. reflexivity.
    + rewrite matchOutcome_win; [|apply Qle_not_lt; exact Hd | lra]. cbn [fst].
      repeat split; try discriminate; intros; try lia. right. reflexivity.
  - assert (Hopp : (inject_Z team <= inject_Z opp)%Q).
    { rewrite <- Zle_Qle.
      assert (E : (inject_Z team * 1.0 == inject_Z team)%Q) by ring.
      rewrite E, Qfloor_Z in Hlo. exact Hlo. }
    assert (Hnd : ~ (inject_Z opp * 1.1 < inject_Z team)%Q) by (apply Qle_not_lt; lra).
    destruct (Qlt_le_dec (inject_Z opp * 0.9) (inject_Z team)) as [Hw | Hw].
    + rewrite matchOutcome_win by assumption. cbn [fst].
      repeat split; try discriminate; intros; try lia. left. reflexivity.
    + rewrite matchOutcome_draw; [|exact Hnd | apply Qle_not_lt; exact Hw | lra]. cbn [fst].
      repeat split; try discriminate; intros; try lia. right. reflexivity.
Qed.

Lemma match_never_lost_witness :
  fst (matchOutcome 420 (opponentOverallOf (99 # 100) 420 tier1) tier1) = DOMINANT_WIN.
Proof.
  assert (Hr : unitInterval (99 # 100)) by (split; vm_compute; [discriminate | reflexivity]).
  assert (Ht : 0 < 420) by lia.
  destruct (match_never_lost (99 # 100) 420 1 tier1 Hr Ht eq_refl) as (_ & H & _).
  apply H. left. reflexivity.
Defined.

Lemma teamOverallOf_nonneg (ps : list Player) :
  Forall (fun p => 0 <= overall p) ps -> 0 <= teamOverallOf ps.
Proof.
  induction 1 as [|p ps Hp _ IH].
  - unfold teamOverallOf. simpl. lia.
  - rewrite teamOverallOf_cons. lia.
Qed.

Lemma matchOutcome_bonus_positive (team opp : Z) (t : LeagueTier) :
  In t LEAGUE_TIERS -> 0 <= team -> (0 < snd (matchOutcome team opp t))%Q.
Proof.
  intros Hin Hteam.
  assert (HT : (0 <= inject_Z team)%Q)
    by (change (inject_Z 0 <= inject_Z team)%Q; rewrite <- Zle_Qle; exact Hteam).
  unfold matchOutcome, LEAGUE_TIERS in *. simpl in Hin.
  destruct Hin as [H | [H | [H | [H | []]]]]; subst t;
    cbn [baseWinReward overallMultiplier];
    destruct (Qlt_bool (inject_Z opp * 1.1) (inject_Z team));
    [| destruct (Qlt_bool (inject_Z opp * 0.9) (inject_Z team));
       [| destruct (Qlt_bool (inject_Z opp * 0.7) (inject_Z team))] | |
       destruct (Qlt_bool (inject_Z opp * 0.9) (inject_Z team));
       [| destruct (Qlt_bool (inject_Z opp * 0.7) (inject_Z team))] | |
       destruct (Qlt_bool (inject_Z opp * 0.9) (inject_Z team));
       [| destruct (Qlt_bool (inject_Z opp * 0.7) (inject_Z team))] | |
       destruct (Qlt_bool (inject_Z opp * 0.9) (inject_Z team));
       [| destruct (Qlt_bool (inject_Z opp * 0.7) (inject_Z team))]];
    cbn [snd]; lra.
Qed.

Lemma finishMatch_money (cl : Closure) (r : Q) (s : State) :
  money (fst (finishMatch cl r s)) =
  if teamOverallOf (cl_players cl) =? 0 then money s
  else match findTier (cl_level cl) with
       | None => money s
       | Some t =>
           (money s + snd (matchOutcome (teamOverallOf (cl_players cl))
                             (opponentOverallOf r (teamOverallOf (cl_players cl)) t) t))%Q
       end.
Proof.
  unfold finishMatch, clearMatchInterval. cbn [matchIntervalRef setMatchTimeLeft setMatchInProgress].
  destruct (teamOverallOf (cl_players cl) =? 0);
    [|destruct (findTier (cl_level cl))];
    destruct (matchIntervalRef s); reflexivity.
Qed.

(** X12.  For a squad whose overalls are not negative a finished match
    never costs money: with a summed overall other than 0 and a league of
    the table the money grows strictly, and a skipped match (summed overall
    0) or a league outside the table leaves the money as it was and says
    so. *)
Theorem finishMatch_pays (cl : Closure) (r : Q) (s : State) :
  Forall (fun p => 0 <= overall p) (cl_players cl) ->
  (money s <= money (fst (finishMatch cl r s)))%Q /\
  (teamOverallOf (cl_players cl) <> 0 ->
   (exists t, findTier (cl_level cl) = Some t) ->
   (money s < money (fst (finishMatch cl r s)))%Q) /\
  (teamOverallOf (cl_players cl) = 0 ->
   snd (finishMatch cl r s) = Some MatchSkipped /\
   money (fst (finishMatch cl r s)) = money s) /\
  (teamOverallOf (cl_players cl) <> 0 ->
   findTier (cl_level cl) = None ->
   snd (finishMatch cl r s) = Some LeagueDataMissing /\
   money (fst (finishMatch cl r s)) = money s).
Proof.
  intros Hps. pose proof (teamOverallOf_nonneg _ Hps) as Hteam.
  rewrite finishMatch_money. unfold finishMatch.
  destruct (teamOverallOf (cl_players cl) =? 0) eqn:E0.
  - apply Z.eqb_eq in E0. split; [apply Qle_refl|].
    split; [intros H; contradiction|]. split; [intros _; split; reflexivity|].
    intros H; contradiction.
  - apply Z.eqb_neq in E0.
    destruct (findTier (cl_level cl)) as [t|] eqn:Ef.
    + pose proof (matchOutcome_bonus_positive (teamOverallOf (cl_players cl))
                    (opponentOverallOf r (teamOverallOf (cl_players cl)) t) t
                    (proj1 (findTier_table _ _ Ef)) Hteam) as Hb.
      split; [lra|]. split; [intros _ _; lra|].
      split; [intros H; contradiction | intros _ H; discriminate H].
    + split; [apply Qle_refl|].
      split; [intros _ [t Ht]; discriminate Ht|].
      split; [intros H; contradiction | intros _ _; split; reflexivity].
Qed.

Lemma finishMatch_pays_witness :
  (money (newGame lineup420) <
   money (fst (finishMatch (closureOf (newGame lineup420)) (1 # 3) (newGame lineup420))))%Q.
Proof.
  assert (Hps : Forall (fun p => 0 <= overall p)
                  (cl_players (closureOf (newGame lineup420))))
    by (repeat constructor; vm_compute; discriminate).
  destruct (finishMatch_pays (closureOf (newGame lineup420)) (1 # 3)
              (newGame lineup420) Hps) as (_ & H & _).
  apply H.
  - vm_compute. discriminate.
  - exists tier1. reflexivity.
Defined.

(** ** A whole match *)

Lemma quiet_frame (a : Action) (s : State) :
  quiet a = true ->
  matchInProgress (perform a s) = matchInProgress s /\
  matchTimeLeft (perform a s) = matchTimeLeft s /\
  matchIntervalRef (perform a s) = matchIntervalRef s /\
  intervals (perform a s) = intervals s.
Proof.
  destruct a as [| | |d i|i| |i r| | |fresh|fresh]; cbn [quiet perform];
    intros Hq; try discriminate Hq.
  - repeat split.
  - unfold buyClickPowerUpgrade. destruct (Qle_bool _ (money s)); repeat split.
  - unfold buyStadiumUpgrade. destruct (Qle_bool _ (money s)); repeat split.
  - unfold recruitNewPlayerInSlot.
    destruct (nth_error (players s) i); [|repeat split]. cbv zeta.
    destruct (Qle_bool _ (money s)); repeat split.
  - unfold trainPlayerInSlot.
    destruct (nth_error (players s) i); [|repeat split]. cbv zeta.
    destruct (Qle_bool _ (money s)); repeat split.
  - repeat split.
  - unfold promoteLeague.
    destruct (findTier (currentLeagueLevel s + 1)); [|repeat split]. cbv zeta.
    destruct (Qlt_bool (money s) _); [repeat split|].
    destruct (_ <? _); repeat split.
Qed.






(** ** What the game keeps *)

Lemma Forall_mapIndexFrom {A : Type} (P : A -> Prop) (f : A -> nat -> A)
    (k : nat) (xs : list A) :
  (forall x idx, P x -> P (f x idx)) ->
  Forall P xs -> Forall P (mapIndexFrom f k xs).
Proof.
  intros Hf H. revert k. induction H as [|x xs Hx _ IH]; intros k; simpl.
  - constructor.
  - constructor; [apply Hf; exact Hx | apply IH].
Qed.

Lemma finishMatch_frame (cl : Closure) (r : Q) (s : State) :
  clickPower (fst (finishMatch cl r s)) = clickPower s /\
  stadiumCapacity (fst (finishMatch cl r s)) = stadiumCapacity s /\
  passiveIncomePerSecond (fst (finishMatch cl r s)) = passiveIncomePerSecond s /\
  players (fst (finishMatch cl r s)) = players s /\
  currentLeagueLevel (fst (finishMatch cl r s)) = currentLeagueLevel s /\
  matchProgress (fst (finishMatch cl r s)) = matchProgress s /\
  forall P : nat * Closure -> Prop,
    Forall P (intervals s) -> Forall P (intervals (fst (finishMatch cl r s))).
Proof.
  unfold finishMatch, clearMatchInterval.
  cbn [matchIntervalRef setMatchTimeLeft setMatchInProgress].
  assert (Hfilter : forall (P : nat * Closure -> Prop) g,
            Forall P (intervals s) -> Forall P (filter g (intervals s))).
  { intros P g H. apply Forall_forall. intros e He.
    apply filter_In in He. destruct He as [He _].
    exact (proj1 (Forall_forall P (intervals s)) H e He). }
  destruct (teamOverallOf (cl_players cl) =? 0);
    [|destruct (findTier (cl_level cl))];
    destruct (matchIntervalRef s); cbn; repeat split; auto.
Qed.

Lemma matchTick_cases (i : nat) (r : Q) (s : State) :
  matchTick i r s = (s, None) \/
  exists cl,
    In (i, cl) (intervals s) /\
    (fst (matchTick i r s) =
       setMatchTimeLeft (matchTimeLeft s - 1)
         (setMatchProgress (progressAt (matchTimeLeft s - 1)) s) \/
     fst (matchTick i r s) =
       fst (finishMatch cl r
              (setMatchTimeLeft 0
                 (setMatchProgress (progressAt (matchTimeLeft s - 1)) s)))).
Proof.
  unfold matchTick.
  destruct (find (fun e => Nat.eqb (fst e) i) (intervals s)) as [[j cl]|] eqn:Ef.
  - right. exists cl. apply find_some in Ef. destruct Ef as [Hin Hj].
    cbn [fst] in Hj. apply Nat.eqb_eq in Hj. subst j.
    split; [exact Hin|]. cbv zeta.
    destruct (matchTimeLeft s - 1 <=? 0); [right | left]; reflexivity.
  - left. reflexivity.
Qed.

(** Reads the fields of a state built with setters. *)
Ltac fields :=
  cbn [money clickPower stadiumCapacity passiveIncomePerSecond currentLeagueLevel
       players matchInProgress matchTimeLeft matchProgress matchIntervalRef
       intervals nextIntervalId
       setMoney setClickPower setStadiumCapacity setPassiveIncomePerSecond
       setCurrentLeagueLevel setPlayers setMatchInProgress setMatchTimeLeft
       setMatchProgress setInterval firstRender newGame fst snd].

Lemma solvent_perform (a : Action) (s : State) :
  solvent s -> fairAction a -> solvent (perform a s).
Proof.
  intros [Hm Hp Hc Hs Hps Hcl] Ha.
  destruct a as [| | |d i|i| |i r| | |fresh|fresh]; cbn [perform fairAction] in *.
  - unfold handleTicketSaleClick. constructor; fields; try assumption.
    assert (H : (0 <= inject_Z (clickPower s))%Q)
      by (change (inject_Z 0 <= inject_Z (clickPower s))%Q; rewrite <- Zle_Qle; lia).
    lra.
  - unfold buyClickPowerUpgrade.
    destruct (Qle_bool _ (money s)) eqn:E; [|constructor; assumption].
    apply Qle_bool_iff in E. constructor; fields; try assumption; [lra | lia].
  - unfold buyStadiumUpgrade.
    destruct (Qle_bool _ (money s)) eqn:E; [|constructor; assumption].
    apply Qle_bool_iff in E. constructor; fields; try assumption; [lra | | lia].
    assert (H : (0 <= inject_Z (stadiumCapacity s + 100))%Q)
      by (change (inject_Z 0 <= inject_Z (stadiumCapacity s + 100))%Q;
          rewrite <- Zle_Qle; lia).
    apply Qle_shift_div_l; [reflexivity|]. lra.
  - unfold recruitNewPlayerInSlot.
    destruct (nth_error (players s) i) as [old|] eqn:Ei; [|constructor; assumption].
    cbv zeta.
    destruct (Qle_bool _ (money s)) eqn:E; [|constructor; assumption].
    apply Qle_bool_iff in E. constructor; fields; try assumption; [lra|].
    apply Forall_mapIndexFrom; [|exact Hps].
    intros p idx Hpp. destruct (Nat.eqb idx i); [|exact Hpp].
    pose proof (generateRandomPlayer_overall d (overall old + 5) (overall old + 15)
                  (position old) Ha ltac:(lia)) as Hb.
    assert (Hold : 0 <= overall old).
    { apply nth_error_In in Ei.
      exact (proj1 (Forall_forall _ (players s)) Hps old Ei). }
    lia.
  - unfold trainPlayerInSlot.
    destruct (nth_error (players s) i) as [p|] eqn:Ei; [|constructor; assumption].
    cbv zeta.
    destruct (Qle_bool _ (money s)) eqn:E; [|constructor; assumption].
    apply Qle_bool_iff in E. constructor; fields; try assumption; [lra|].
    apply Forall_mapIndexFrom; [|exact Hps].
    intros q idx Hq. destruct (Nat.eqb idx i); [cbn [overall]; lia | exact Hq].
  - unfold startMatch.
    destruct (Nat.eqb _ 0); [constructor; assumption|].
    destruct (matchInProgress s); [constructor; assumption|].
    constructor; fields; try assumption.
    apply Forall_app. split; [exact Hcl|]. constructor; [exact Hps | constructor].
  - destruct (matchTick_cases i r s) as [E | (cl & Hin & [E | E])]; rewrite E.
    + constructor; assumption.
    + constructor; assumption.
    + set (s1 := setMatchTimeLeft 0
                    (setMatchProgress (progressAt (matchTimeLeft s - 1)) s)).
      assert (Hclp : nonNegative (cl_players cl))
        by exact (proj1 (Forall_forall _ (intervals s)) Hcl (i, cl) Hin).
      destruct (finishMatch_frame cl r s1) as (F1 & F2 & F3 & F4 & _ & _ & F7).
      constructor; fields.
      * rewrite finishMatch_money. subst s1. fields.
        destruct (teamOverallOf (cl_players cl) =? 0); [exact Hm|].
        destruct (findTier (cl_level cl)) as [t|] eqn:Ef; [|exact Hm].
        pose proof (matchOutcome_bonus_positive (teamOverallOf (cl_players cl))
                      (opponentOverallOf r (teamOverallOf (cl_players cl)) t) t
                      (proj1 (findTier_table _ _ Ef)) (teamOverallOf_nonneg _ Hclp)).
        lra.
      * rewrite F3. exact Hp.
      * rewrite F1. exact Hc.
      * rewrite F2. exact Hs.
      * rewrite F4. exact Hps.
      * apply F7. exact Hcl.
  - unfold passiveTick. constructor; fields; try assumption. lra.
  - unfold promoteLeague.
    destruct (findTier (currentLeagueLevel s + 1)) as [t|]; [|constructor; assumption].
    cbv zeta.
    destruct (Qlt_bool (money s) _) eqn:E; [constructor; assumption|].
    destruct (_ <? _); [constructor; assumption|].
    apply Qlt_bool_false_iff in E. constructor; fields; try assumption. lra.
  - rewrite mount_saveEffect. cbn [orStay].
    constructor; fields; try assumption; try lia; try apply Qle_refl. constructor.
  - rewrite mount_Absent. cbn [orStay].
    constructor; fields; try assumption; try lia; try apply Qle_refl. constructor.
Qed.

(** X14.  In a game on a lineup without negative overalls, played with
    draws in [0, 1), the money never goes below 0, the click power never
    below 1 and the stadium never below 100 seats, whatever is clicked and
    bought and however often the page is reloaded. *)
Theorem money_never_negative (fresh : list Player) (acts : list Action) :
  nonNegative fresh ->
  Forall fairAction acts ->
  (0 <= money (performAll acts (newGame fresh)))%Q /\
  1 <= clickPower (performAll acts (newGame fresh)) /\
  100 <= stadiumCapacity (performAll acts (newGame fresh)).
Proof.
  intros Hfresh Hacts.
  assert (H : solvent (performAll acts (newGame fresh))).
  { assert (H0 : solvent (newGame fresh)).
    { constructor; fields; try lia; try apply Qle_refl; [exact Hfresh | constructor]. }
    revert H0. generalize (newGame fresh).
    induction Hacts as [|a acts Ha _ IH]; intros s Hs.
    - exact Hs.
    - cbn [performAll fold_left]. apply IH. apply solvent_perform; assumption. }
  destruct H. repeat split; assumption.
Qed.

Lemma money_never_negative_witness :
  (0 <= money (performAll [SellTickets; BuyClickPower; Train 0; Recruit middleDraws 1]
                 (newGame lineup420)))%Q.
Proof.
  assert (Hfresh : nonNegative lineup420) by (repeat constructor; vm_compute; discriminate).
  assert (Hacts : Forall fairAction
                    [SellTickets; BuyClickPower; Train 0; Recruit middleDraws 1]).
  { repeat constructor; vm_compute; discriminate. }
  exact (proj1 (money_never_negative lineup420 _ Hfresh Hacts)).
Defined.

Lemma matchTick_level (i : nat) (r : Q) (s : State) :
  currentLeagueLevel (fst (matchTick i r s)) = currentLeagueLevel s /\
  players (fst (matchTick i r s)) = players s /\
  clickPower (fst (matchTick i r s)) = clickPower s /\
  stadiumCapacity (fst (matchTick i r s)) = stadiumCapacity s /\
  passiveIncomePerSecond (fst (matchTick i r s)) = passiveIncomePerSecond s.
Proof.
  destruct (matchTick_cases i r s) as [E | (cl & _ & [E | E])]; rewrite E.
  - repeat split.
  - repeat split.
  - destruct (finishMatch_frame cl r
                (setMatchTimeLeft 0
                   (setMatchProgress (progressAt (matchTimeLeft s - 1)) s)))
      as (F1 & F2 & F3 & F4 & F5 & _).
    rewrite F1, F2, F3, F4, F5. repeat split.
Qed.

(** X15.  From a league level between 1 and 4 every action leaves the level
    between 1 and 4 and raises it by at most 1; only clearing the save can
    lower it. *)
Theorem league_level_bounds (a : Action) (s : State) :
  1 <= currentLeagueLevel s <= 4 ->
  1 <= currentLeagueLevel (perform a s) <= 4 /\
  currentLeagueLevel (perform a s) <= currentLeagueLevel s + 1 /\
  ((forall fresh, a <> ClearSave fresh) ->
   currentLeagueLevel s <= currentLeagueLevel (perform a s)).
Proof.
  intros Hl.
  destruct a as [| | |d i|i| |i r| | |fresh|fresh]; cbn [perform].
  - unfold handleTicketSaleClick. fields. lia.
  - unfold buyClickPowerUpgrade. destruct (Qle_bool _ (money s)); fields; lia.
  - unfold buyStadiumUpgrade. destruct (Qle_bool _ (money s)); fields; lia.
  - unfold recruitNewPlayerInSlot.
    destruct (nth_error (players s) i); [|fields; lia]. cbv zeta.
    destruct (Qle_bool _ (money s)); fields; lia.
  - unfold trainPlayerInSlot.
    destruct (nth_error (players s) i); [|fields; lia]. cbv zeta.
    destruct (Qle_bool _ (money s)); fields; lia.
  - unfold startMatch.
    destruct (Nat.eqb _ 0); [fields; lia|].
    destruct (matchInProgress s); fields; lia.
  - destruct (matchTick_level i r s) as [E _]. rewrite E. lia.
  - unfold passiveTick. fields. lia.
  - unfold promoteLeague.
    destruct (findTier (currentLeagueLevel s + 1)) as [t|] eqn:Ef; [|fields; lia].
    apply findTier_table in Ef. cbv zeta.
    destruct (Qlt_bool (money s) _); [fields; lia|].
    destruct (_ <? _); fields; lia.
  - rewrite mount_saveEffect. cbn [orStay]. fields.
    rewrite orZ_Some by lia. lia.
  - rewrite mount_Absent. cbn [orStay]. fields.
    split; [lia|]. split; [lia|]. intros H. exfalso. exact (H fresh eq_refl).
Qed.

Lemma league_level_bounds_witness :
  currentLeagueLevel (perform Promote richStrongState) = 2 /\
  1 <= currentLeagueLevel (perform Promote richStrongState) <= 4.
Proof.
  assert (Hl : 1 <= currentLeagueLevel richStrongState <= 4) by (vm_compute; split; discriminate).
  split; [reflexivity|].
  exact (proj1 (league_level_bounds Promote richStrongState Hl)).
Defined.

Lemma stadiumInv_firstRender (lvl : Z) (ps : list Player) : stadiumInv (firstRender lvl ps).
Proof.
  split; [cbn; lia|]. exists 1. cbn. split; [lia|]. split; [reflexivity|].
  left. split; reflexivity.
Qed.

Lemma stadiumInv_frame (s s' : State) :
  stadiumInv s ->
  clickPower s' = clickPower s ->
  stadiumCapacity s' = stadiumCapacity s ->
  passiveIncomePerSecond s' = passiveIncomePerSecond s ->
  stadiumInv s'.
Proof.
  unfold stadiumInv. intros H E1 E2 E3. rewrite E1, E2, E3. exact H.
Qed.

Lemma stadiumInv_perform (a : Action) (s : State) :
  stadiumInv s -> stadiumInv (perform a s).
Proof.
  intros Hinv.
  destruct a as [| | |d i|i| |i r| | |fresh|fresh]; cbn [perform].
  - apply (stadiumInv_frame s); auto.
  - unfold buyClickPowerUpgrade.
    destruct (Qle_bool _ (money s)); [|exact Hinv].
    destruct Hinv as [Hc Hk]. split; [fields; lia | exact Hk].
  - unfold buyStadiumUpgrade.
    destruct (Qle_bool _ (money s)); [|exact Hinv].
    destruct Hinv as [Hc (k & Hk & Hs & _)]. split; [exact Hc|].
    exists (k + 1). fields. split; [lia|]. split; [lia|]. right.
    rewrite Hs. replace (100 * k + 100) with (100 * (k + 1)) by lia.
    rewrite inject_Z_mult. change (inject_Z 100) with 100%Q. field.
  - apply (stadiumInv_frame s); auto;
      unfold recruitNewPlayerInSlot;
      (destruct (nth_error (players s) i); [|reflexivity]); cbv zeta;
      (destruct (Qle_bool _ (money s)); reflexivity).
  - apply (stadiumInv_frame s); auto;
      unfold trainPlayerInSlot;
      (destruct (nth_error (players s) i); [|reflexivity]); cbv zeta;
      (destruct (Qle_bool _ (money s)); reflexivity).
  - apply (stadiumInv_frame s); auto;
      unfold startMatch; (destruct (Nat.eqb _ 0); [reflexivity|]);
      (destruct (matchInProgress s); reflexivity).
  - destruct (matchTick_level i r s) as (_ & _ & E1 & E2 & E3).
    apply (stadiumInv_frame s); assumption.
  - apply (stadiumInv_frame s); auto.
  - apply (stadiumInv_frame s); auto;
      unfold promoteLeague;
      (destruct (findTier (currentLeagueLevel s + 1)); [|reflexivity]); cbv zeta;
      (destruct (Qlt_bool (money s) _); [reflexivity|]);
      (destruct (_ <? _); reflexivity).
  - rewrite mount_saveEffect. cbn [orStay]. apply stadiumInv_firstRender.
  - rewrite mount_Absent. cbn [orStay]. apply stadiumInv_firstRender.
Qed.

(** X16.  In every reachable state the click power is at least 1, the
    stadium holds a whole number [k >= 1] of hundreds of seats, and the
    passive income per second is [k], or 0 while the stadium is still at 100
    seats. *)
Theorem stadium_and_passive_income (s : State) :
  reachable s ->
  1 <= clickPower s /\
  exists k : Z,
    1 <= k /\
    stadiumCapacity s = 100 * k /\
    ((k = 1 /\ (passiveIncomePerSecond s == 0)%Q) \/
     (passiveIncomePerSecond s == inject_Z k)%Q).
Proof.
  induction 1 as [st fresh s H | a s _ IH].
  - destruct (mount_firstRender _ _ _ H) as (lvl & ps & ->).
    apply stadiumInv_firstRender.
  - apply stadiumInv_perform. exact IH.
Qed.

Lemma stadium_and_passive_income_witness :
  stadiumCapacity (perform BuyStadium scenarioC) = 200 /\
  exists k : Z,
    1 <= k /\
    stadiumCapacity (perform BuyStadium scenarioC) = 100 * k /\
    ((k = 1 /\ (passiveIncomePerSecond (perform BuyStadium scenarioC) == 0)%Q) \/
     (passiveIncomePerSecond (perform BuyStadium scenarioC) == inject_Z k)%Q).
Proof.
  assert (Hreach : reachable (perform BuyStadium scenarioC))
    by (apply reach_step, scenarioC_reachable).
  split; [vm_compute; reflexivity|].
  exact (proj2 (stadium_and_passive_income _ Hreach)).
Defined.

Lemma map_position_replaceFrom (new : Player) (ps : list Player) (k i : nat) (old : Player) :
  nth_error ps i = Some old ->
  position new = position old ->
  map position (mapIndexFrom (fun p idx => if Nat.eqb idx (k + i) then new else p) k ps) =
  map position ps.
Proof.
  revert k i. induction ps as [|p ps IH]; intros k i Hi Hpos.
  - reflexivity.
  - destruct i as [|i]; simpl in Hi.
    + inversion Hi. subst p. simpl. rewrite Nat.add_0_r, Nat.eqb_refl.
      rewrite (mapIndexFrom_miss (fun _ => new)) by lia. rewrite Hpos. reflexivity.
    + simpl.
      assert (E : Nat.eqb k (k + S i) = false) by (apply Nat.eqb_neq; lia).
      rewrite E. replace (k + S i)%nat with (S k + i)%nat by lia.
      rewrite (IH (S k) i Hi Hpos). reflexivity.
Qed.

Lemma map_position_mapIndexFrom (f : Player -> nat -> Player) (k : nat) (ps : list Player) :
  (forall p idx, position (f p idx) = position p) ->
  map position (mapIndexFrom f k ps) = map position ps.
Proof.
  intros Hf. revert k. induction ps as [|p ps IH]; intros k; simpl.
  - reflexivity.
  - rewrite Hf, IH. reflexivity.
Qed.

(** X17.  No action but clearing the save changes the number of roster
    slots or the position of a slot: training, recruiting, matches,
    purchases, promotions and reloads all keep the list of positions. *)
Theorem roster_positions_kept (a : Action) (s : State) :
  (forall fresh, a <> ClearSave fresh) ->
  map position (players (perform a s)) = map position (players s) /\
  List.length (players (perform a s)) = List.length (players s).
Proof.
  intros Ha.
  assert (H : map position (players (perform a s)) = map position (players s)).
  { destruct a as [| | |d i|i| |i r| | |fresh|fresh]; cbn [perform].
    - reflexivity.
    - unfold buyClickPowerUpgrade. destruct (Qle_bool _ (money s)); reflexivity.
    - unfold buyStadiumUpgrade. destruct (Qle_bool _ (money s)); reflexivity.
    - unfold recruitNewPlayerInSlot.
      destruct (nth_error (players s) i) as [old|] eqn:Ei; [|reflexivity]. cbv zeta.
      destruct (Qle_bool _ (money s)); [|reflexivity]. fields.
      unfold mapIndex.
      exact (map_position_replaceFrom
               (generateRandomPlayer d (overall old + 5) (overall old + 15) (position old))
               (players s) 0 i old Ei eq_refl).
    - unfold trainPlayerInSlot.
      destruct (nth_error (players s) i) as [p|] eqn:Ei; [|reflexivity]. cbv zeta.
      destruct (Qle_bool _ (money s)); [|reflexivity]. fields.
      apply map_position_mapIndexFrom. intros q idx.
      destruct (Nat.eqb idx i); reflexivity.
    - unfold startMatch. destruct (Nat.eqb _ 0); [reflexivity|].
      destruct (matchInProgress s); reflexivity.
    - destruct (matchTick_level i r s) as (_ & E & _). rewrite E. reflexivity.
    - reflexivity.
    - unfold promoteLeague.
      destruct (findTier (currentLeagueLevel s + 1)); [|reflexivity]. cbv zeta.
      destruct (Qlt_bool (money s) _); [reflexivity|].
      destruct (_ <? _); reflexivity.
    - rewrite mount_saveEffect. reflexivity.
    - exfalso. exact (Ha fresh eq_refl). }
  split; [exact H|].
  rewrite <- (length_map position (players (perform a s))), H. apply length_map.
Qed.

Lemma roster_positions_kept_witness :
  map position (players (perform (Recruit middleDraws 0) (setMoney 7000 trainingCamp))) =
    [GK; DEF].
Proof.
  assert (Ha : forall fresh, Recruit middleDraws 0 <> ClearSave fresh)
    by (intros fresh; discriminate).
  rewrite (proj1 (roster_positions_kept (Recruit middleDraws 0)
                    (setMoney 7000 trainingCamp) Ha)).
  reflexivity.
Defined.

(** X18.  In every reachable state there is at most one match interval, and
    none when no match is in progress: a finished match leaves no timer
    behind, and [matchIntervalRef] is null then. *)
Theorem no_stray_interval (s : State) :
  reachable s ->
  (List.length (intervals s) <= 1)%nat /\
  (matchInProgress s = false -> intervals s = [] /\ matchIntervalRef s = None) /\
  (forall i cl, In (i, cl) (intervals s) ->
     matchInProgress s = true /\ matchIntervalRef s = Some i).
Proof.
  intros Hreach. pose proof (reachable_timerInv s Hreach) as Hinv.
  destruct (matchInProgress s) eqn:Ep.
  - destruct (inv_running s Hinv Ep) as ((i & cl & Hi & Hr) & _).
    rewrite Hi. split; [cbn; lia|]. split; [discriminate|].
    intros j cl' [H | []]. inversion H. subst. split; [reflexivity | exact Hr].
  - destruct (inv_idle s Hinv Ep) as [Hi Hr].
    rewrite Hi. split; [cbn; lia|]. split; [intros _; split; [reflexivity | exact Hr]|].
    intros j cl' [].
Qed.

Lemma no_stray_interval_witness :
  intervals fullTime = [] /\ matchIntervalRef fullTime = None.
Proof.
  assert (Hreach : reachable fullTime) by apply reachable_performAll, reachable_newGame.
  destruct (no_stray_interval fullTime Hreach) as (_ & H & _).
  apply H. vm_compute. reflexivity.
Defined.

(** ** The load code on a saved game *)

(** X19.  The initialisers and effect 4, given the very game effect 3
    stores for a state whose click power, stadium capacity, league level
    and remaining time are not 0, return a state with the same eight saved
    cells.  If the state had a match in progress with time left, they also
    set the progress from the remaining time and start one interval;
    otherwise they start none. *)
Theorem load_code_restores_saved_game (s : State) (fresh : list Player) :
  clickPower s <> 0 ->
  stadiumCapacity s <> 0 ->
  currentLeagueLevel s <> 0 ->
  matchTimeLeft s <> 0 ->
  exists s',
    rehydrate (saveEffect s) fresh = Returned s' /\
    (money s' == money s)%Q /\
    clickPower s' = clickPower s /\
    stadiumCapacity s' = stadiumCapacity s /\
    (passiveIncomePerSecond s' == passiveIncomePerSecond s)%Q /\
    players s' = players s /\
    matchInProgress s' = matchInProgress s /\
    matchTimeLeft s' = matchTimeLeft s /\
    currentLeagueLevel s' = currentLeagueLevel s /\
    (matchInProgress s = true -> 0 < matchTimeLeft s ->
     matchProgress s' = progressAt (matchTimeLeft s) /\
     intervals s' = [(0%nat, closureOf s)]) /\
    (matchInProgress s = false \/ matchTimeLeft s < 0 -> intervals s' = []).
Proof.
  intros Hc Hs Hl Ht.
  destruct (rehydrate_saveEffect s fresh Hc Hs Hl Ht)
    as (s' & E & H1 & H2 & H3 & H4 & H5 & H6 & H7 & H8).
  exists s'. repeat (split; [assumption|]).
  revert E. unfold rehydrate, saveEffect, initialState, loadEffect, resumable.
  cbn [b_money b_clickPower b_stadiumCapacity b_passiveIncomePerSecond b_players
       b_matchInProgress b_matchTimeLeft b_currentLeagueLevel orPlayers].
  rewrite (orZ_Some _ _ Hl).
  destruct (matchInProgress s) eqn:Ep.
  - destruct (0 <? matchTimeLeft s) eqn:E0; intros E; inversion E; subst s'; fields.
    + split; [intros _ _; split; reflexivity|].
      apply Z.ltb_lt in E0. intros [H | H]; [discriminate H | lia].
    + apply Z.ltb_ge in E0. split; [intros _ H; lia | intros _; reflexivity].
  - intros E; inversion E; subst s'; fields.
    split; [intros H; discriminate H | intros _; reflexivity].
Qed.

Lemma load_code_restores_saved_game_witness :
  exists s',
    rehydrate (saveEffect midMatch) [] = Returned s' /\
    matchTimeLeft s' = matchTimeLeft midMatch /\
    matchInProgress s' = matchInProgress midMatch /\
    players s' = players midMatch.
Proof.
  assert (Hc : clickPower midMatch <> 0) by (vm_compute; discriminate).
  assert (Hs : stadiumCapacity midMatch <> 0) by (vm_compute; discriminate).
  assert (Hl : currentLeagueLevel midMatch <> 0) by (vm_compute; discriminate).
  assert (Ht : matchTimeLeft midMatch <> 0) by (vm_compute; discriminate).
  destruct (load_code_restores_saved_game midMatch [] Hc Hs Hl Ht)
    as (s' & E & _ & _ & _ & _ & H5 & H6 & H7 & _).
  exists s'. split; [exact E|]. split; [exact H7|]. split; [exact H6 | exact H5].
Defined.

(** X20.  A reload of the page keeps the roster and, when it is not 0, the
    league level; every other cell is back at the value of a first render
    (no money, click power 1, 100 seats, no passive income, no match, 300
    seconds) and no interval is left. *)
Theorem reload_keeps_roster_and_level (s : State) (fresh : list Player) :
  currentLeagueLevel s <> 0 ->
  perform (Reload fresh) s = firstRender (currentLeagueLevel s) (players s) /\
  players (perform (Reload fresh) s) = players s /\
  currentLeagueLevel (perform (Reload fresh) s) = currentLeagueLevel s /\
  money (perform (Reload fresh) s) = 0%Q /\
  matchInProgress (perform (Reload fresh) s) = false /\
  intervals (perform (Reload fresh) s) = [].
Proof.
  intros Hl.
  assert (E : perform (Reload fresh) s = firstRender (currentLeagueLevel s) (players s)).
  { cbn [perform]. rewrite mount_saveEffect, (orZ_Some _ _ Hl). reflexivity. }
  rewrite E. repeat split.
Qed.

Lemma reload_keeps_roster_and_level_witness :
  players (perform (Reload []) midMatch) = lineup420 /\
  currentLeagueLevel (perform (Reload []) midMatch) = 1.
Proof.
  assert (Hl : currentLeagueLevel midMatch <> 0) by (vm_compute; discriminate).
  destruct (reload_keeps_roster_and_level midMatch [] Hl) as (_ & H1 & H2 & _).
  rewrite H1, H2. split; vm_compute; reflexivity.
Defined.

(** ** Badges and the clock *)

Lemma TIER_COLORS_nth (k : Z) :
  0 <= k <= 9 ->
  exists c, nth_error TIER_COLORS (Z.to_nat k) = Some c /\ forall d, orString (Some c) d = c.
Proof.
  intros H.
  assert (E : k = 0 \/ k = 1 \/ k = 2 \/ k = 3 \/ k = 4 \/ k = 5 \/ k = 6 \/ k = 7 \/
              k = 8 \/ k = 9) by lia.
  repeat (destruct E as [E | E]; [subst k; eexists; split; [reflexivity | intros d; reflexivity]|]).
  subst k; eexists; split; [reflexivity | intros d; reflexivity].
Qed.

(** X21.  Whatever the level, the levels per tier and the cap, also 0 or
    negative, the colour class returned is one of the ten of
    [TIER_COLORS]. *)
Theorem getUpgradeTierVisuals_color (currentLevel levelsPerColorTier maxPossibleTier : Z) :
  In (colorClass (getUpgradeTierVisuals currentLevel levelsPerColorTier maxPossibleTier))
     TIER_COLORS.
Proof.
  unfold getUpgradeTierVisuals. cbn [colorClass].
  set (x := jsMin _ _).
  assert (Hd : In (nth 0 TIER_COLORS ""%string) TIER_COLORS) by (left; reflexivity).
  destruct (tierColorAt x) as [c|] eqn:E; [|exact Hd].
  destruct c as [|a c]; [exact Hd|]. cbn [orString].
  unfold tierColorAt in E. destruct x as [i| | |]; try discriminate E.
  destruct (i <? 0); [discriminate E|].
  exact (nth_error_In _ _ E).
Qed.

(** X22.  With a positive number of levels per tier and a cap between 1 and
    10 the tier number is an integer from 1 to the cap, it is 1 up to level
    1, the colour is the entry of [TIER_COLORS] just before it, and a higher
    level never shows a lower tier. *)
Theorem getUpgradeTierVisuals_in_range (currentLevel levelsPerColorTier maxPossibleTier : Z) :
  0 < levelsPerColorTier ->
  1 <= maxPossibleTier <= 10 ->
  exists n,
    tierNumber (getUpgradeTierVisuals currentLevel levelsPerColorTier maxPossibleTier) = Fin n /\
    1 <= n <= maxPossibleTier /\
    (currentLevel <= 1 -> n = 1) /\
    nth_error TIER_COLORS (Z.to_nat (n - 1)) =
      Some (colorClass (getUpgradeTierVisuals currentLevel levelsPerColorTier maxPossibleTier)) /\
    forall higher, currentLevel <= higher ->
      exists n',
        tierNumber (getUpgradeTierVisuals higher levelsPerColorTier maxPossibleTier) = Fin n' /\
        n <= n'.
Proof.
  intros Hper Hmax. unfold getUpgradeTierVisuals, floorDiv.
  assert (E : (levelsPerColorTier =? 0) = false) by (apply Z.eqb_neq; lia).
  rewrite E. cbn [jsSucc jsMin tierNumber colorClass].
  set (q := Z.max 0 (currentLevel - 1) / levelsPerColorTier).
  assert (Hq : 0 <= q) by (apply Z.div_pos; lia).
  exists (Z.min (q + 1) maxPossibleTier).
  split; [reflexivity|]. split; [lia|]. split.
  { intros Hl. subst q. replace (Z.max 0 (currentLevel - 1)) with 0 by lia.
    rewrite Z.div_0_l by lia. lia. }
  split.
  { replace (Z.min (q + 1) maxPossibleTier - 1) with (Z.min q (maxPossibleTier - 1)) by lia.
    unfold tierColorAt.
    assert (E0 : (Z.min q (maxPossibleTier - 1) <? 0) = false) by (apply Z.ltb_ge; lia).
    rewrite E0.
    destruct (TIER_COLORS_nth (Z.min q (maxPossibleTier - 1)) ltac:(lia)) as (c & Hc & Ho).
    rewrite Hc, Ho. reflexivity. }
  intros higher Hh. rewrite ?E. cbn [jsSucc jsMin tierNumber].
  eexists. split; [reflexivity|].
  assert (Hmono : q <= Z.max 0 (higher - 1) / levelsPerColorTier)
    by (apply Z.div_le_mono; lia).
  lia.
Qed.

Lemma getUpgradeTierVisuals_in_range_witness :
  exists n,
    tierNumber (getUpgradeTierVisuals 25 10 10) = Fin n /\
    1 <= n <= 10 /\
    nth_error TIER_COLORS (Z.to_nat (n - 1)) =
      Some (colorClass (getUpgradeTierVisuals 25 10 10)).
Proof.
  assert (Hper : 0 < 10) by lia. assert (Hmax : 1 <= 10 <= 10) by lia.
  destruct (getUpgradeTierVisuals_in_range 25 10 10 Hper Hmax) as (n & Hn & Hr & _ & Hc & _).
  exists n. split; [exact Hn|]. split; [exact Hr | exact Hc].
Defined.

(** X23.  For a league level from 1 to 4 the league badge shows the level
    itself and the name shown is the name of that tier; for any other level
    the name shown is "Unknown League". *)
Theorem league_badge (s : State) :
  (1 <= currentLeagueLevel s <= 4 ->
   tierNumber (leagueVisuals s) = Fin (currentLeagueLevel s) /\
   exists t,
     findTier (currentLeagueLevel s) = Some t /\
     level t = currentLeagueLevel s /\
     currentLeagueName s = tierName t) /\
  (currentLeagueLevel s < 1 \/ 4 < currentLeagueLevel s ->
   currentLeagueName s = "Unknown League"%string).
Proof.
  unfold leagueVisuals, currentLeagueName. split.
  - intros H.
    assert (E : currentLeagueLevel s = 1 \/ currentLeagueLevel s = 2 \/
                currentLeagueLevel s = 3 \/ currentLeagueLevel s = 4) by lia.
    destruct E as [E | [E | [E | E]]]; rewrite E;
      (split; [reflexivity | eexists; split; [reflexivity | split; reflexivity]]).
  - intros H. rewrite findTier_outside by exact H. reflexivity.
Qed.

Lemma league_badge_witness :
  tierNumber (leagueVisuals (newGame lineup420)) = Fin 1 /\
  currentLeagueName (newGame lineup420) = "Amateur League"%string /\
  currentLeagueName (setCurrentLeagueLevel 5 (newGame lineup420)) = "Unknown League"%string.
Proof.
  destruct (league_badge (newGame lineup420)) as [H _].
  destruct (league_badge (setCurrentLeagueLevel 5 (newGame lineup420))) as [_ H'].
  assert (Hl : 1 <= currentLeagueLevel (newGame lineup420) <= 4)
    by (vm_compute; split; discriminate).
  destruct (H Hl) as (Hn & t & Ht & _ & Hname).
  split; [exact Hn|]. split.
  - rewrite Hname. vm_compute in Ht. inversion Ht. reflexivity.
  - apply H'. right. vm_compute. reflexivity.
Defined.

(** X24.  The play button is disabled exactly when the roster is empty, and
    [startMatch] then shows its alert and keeps the state.  Where the button
    is shown and enabled, [startMatch] starts a match of 300 seconds at
    progress 0 with one new interval, which remembers the roster and the
    league of that moment. *)
Theorem play_button (s : State) :
  (playButtonDisabled s = true <-> players s = []) /\
  (playButtonDisabled s = true -> startMatch s = (s, Some NeedPlayers)) /\
  (playButtonRendered s = true ->
   playButtonDisabled s = false ->
   snd (startMatch s) = None /\
   matchInProgress (fst (startMatch s)) = true /\
   matchTimeLeft (fst (startMatch s)) = 300 /\
   matchProgress (fst (startMatch s)) = 0%Q /\
   matchIntervalRef (fst (startMatch s)) = Some (nextIntervalId s) /\
   intervals (fst (startMatch s)) = intervals s ++ [(nextIntervalId s, closureOf s)]).
Proof.
  unfold playButtonDisabled, playButtonRendered, startMatch.
  split; [|split].
  - destruct (players s); cbn; split; intros H; try reflexivity; discriminate H.
  - intros H. rewrite H. reflexivity.
  - intros Hr Hd. rewrite Hd. apply negb_true_iff in Hr. rewrite Hr.
    repeat split.
Qed.

Lemma play_button_witness :
  matchInProgress (fst (startMatch (newGame lineup420))) = true /\
  startMatch (newGame []) = (newGame [], Some NeedPlayers).
Proof.
  destruct (play_button (newGame lineup420)) as (_ & _ & H).
  destruct (play_button (newGame [])) as (_ & H' & _).
  destruct (H eq_refl eq_refl) as (_ & Hp & _).
  split; [exact Hp | apply H'; reflexivity].
Defined.

Lemma formatTime_checked :
  forallb (fun n => let s := Z.of_nat n in
                    (String.eqb (formatTime s) (clockFace (s / 60) (s mod 60))
                     && (readClock (formatTime s) =? s))%bool)
          (seq 0 (Z.to_nat 6000)) = true.
Proof. vm_compute. reflexivity. Qed.

Lemma formatTime_face (seconds : Z) :
  0 <= seconds < 6000 ->
  formatTime seconds = clockFace (seconds / 60) (seconds mod 60) /\
  readClock (formatTime seconds) = seconds.
Proof.
  intros H.
  pose proof (proj1 (forallb_forall _ _) formatTime_checked (Z.to_nat seconds)) as Hc.
  cbv beta zeta in Hc. rewrite Z2Nat.id in Hc by lia.
  assert (Hin : In (Z.to_nat seconds) (seq 0 (Z.to_nat 6000))) by (apply in_seq; lia).
  specialize (Hc Hin). apply andb_true_iff in Hc. destruct Hc as [H1 H2].
  split; [apply String.eqb_eq; exact H1 | apply Z.eqb_eq; exact H2].
Qed.

(** X25.  For a time from 0 seconds up to 99 minutes 59 seconds the clock is
    five characters: two digits of minutes, a colon, two digits of seconds.
    Two different times in that range never show the same clock. *)
Theorem formatTime_clock (seconds : Z) :
  0 <= seconds < 6000 ->
  formatTime seconds = clockFace (seconds / 60) (seconds mod 60) /\
  String.length (formatTime seconds) = 5%nat /\
  forall other, 0 <= other < 6000 ->
    formatTime other = formatTime seconds -> other = seconds.
Proof.
  intros H. destruct (formatTime_face seconds H) as [Hf Hr].
  split; [exact Hf|]. split; [rewrite Hf; reflexivity|].
  intros other Ho E.
  destruct (formatTime_face other Ho) as [_ Hr'].
  rewrite <- Hr, <- Hr', E. reflexivity.
Qed.

Lemma formatTime_clock_witness :
  formatTime 125 = "02:05"%string /\ String.length (formatTime 125) = 5%nat.
Proof.
  assert (H : 0 <= 125 < 6000) by lia.
  destruct (formatTime_clock 125 H) as (Hf & Hl & _).
  split; [rewrite Hf; reflexivity | exact Hl].
Defined.

(** X26.  In every reachable state the remaining time is between 0 and 300
    seconds, so the clock of the match shows a time between 00:00 and 05:00
    in the five-character form: at most 5 minutes, and no seconds beyond
    them. *)
Theorem match_clock_well_formed (s : State) :
  reachable s ->
  0 <= matchTimeLeft s <= 300 /\
  formatTime (matchTimeLeft s) =
    clockFace (matchTimeLeft s / 60) (matchTimeLeft s mod 60) /\
  String.length (formatTime (matchTimeLeft s)) = 5%nat /\
  0 <= matchTimeLeft s / 60 <= 5 /\
  (matchTimeLeft s / 60 = 5 -> matchTimeLeft s mod 60 = 0).
Proof.
  intros Hreach.
  pose proof (inv_range s (reachable_timerInv s Hreach)) as Hr.
  unfold MATCH_DURATION_SECONDS in Hr.
  destruct (formatTime_face (matchTimeLeft s) ltac:(lia)) as [Hf _].
  pose proof (Z.div_mod (matchTimeLeft s) 60 ltac:(lia)) as Hdm.
  pose proof (Z.mod_pos_bound (matchTimeLeft s) 60 ltac:(lia)) as Hm.
  split; [lia|]. split; [exact Hf|]. split; [rewrite Hf; reflexivity|].
  split.
  - split; [apply Z.div_pos; lia|].
    apply Z.div_le_upper_bound; lia.
  - intros H5. lia.
Qed.

Lemma match_clock_well_formed_witness :
  formatTime (matchTimeLeft midMatch) = "02:00"%string /\
  0 <= matchTimeLeft midMatch <= 300.
Proof.
  assert (Hreach : reachable midMatch) by apply reachable_performAll, reachable_newGame.
  destruct (match_clock_well_formed midMatch Hreach) as (Hr & Hf & _).
  split; [|exact Hr].
  rewrite Hf. vm_compute. reflexivity.
Defined.

Lemma quiet_progress (a : Action) (s : State) :
  quiet a = true -> matchProgress (perform a s) = matchProgress s.
Proof.
  destruct a as [| | |d i|i| |i r| | |fresh|fresh]; cbn [quiet perform];
    intros Hq; try discriminate Hq.
  - reflexivity.
  - unfold buyClickPowerUpgrade. destruct (Qle_bool _ (money s)); reflexivity.
  - unfold buyStadiumUpgrade. destruct (Qle_bool _ (money s)); reflexivity.
  - unfold recruitNewPlayerInSlot.
    destruct (nth_error (players s) i); [|reflexivity]. cbv zeta.
    destruct (Qle_bool _ (money s)); reflexivity.
  - unfold trainPlayerInSlot.
    destruct (nth_error (players s) i); [|reflexivity]. cbv zeta.
    destruct (Qle_bool _ (money s)); reflexivity.
  - reflexivity.
  - unfold promoteLeague.
    destruct (findTier (currentLeagueLevel s + 1)); [|reflexivity]. cbv zeta.
    destruct (Qlt_bool (money s) _); [reflexivity|].
    destruct (_ <? _); reflexivity.
Qed.

Lemma progressAt_range (t : Z) :
  0 <= t <= 300 -> (0 <= progressAt t)%Q /\ (progressAt t <= 100)%Q.
Proof.
  intros H. unfold progressAt, MATCH_DURATION_SECONDS.
  change (inject_Z (5 * 60)) with 300%Q.
  assert (H0 : (0 <= inject_Z (300 - t))%Q)
    by (change (inject_Z 0 <= inject_Z (300 - t))%Q; rewrite <- Zle_Qle; lia).
  assert (H1 : (inject_Z (300 - t) <= 300)%Q)
    by (change (inject_Z (300 - t) <= inject_Z 300)%Q; rewrite <- Zle_Qle; lia).
  assert (E : (inject_Z (300 - t) / 300 * 100 == inject_Z (300 - t) * (1 # 3))%Q)
    by field.
  split.
  - apply Qle_trans with (inject_Z (300 - t) * (1 # 3))%Q; [lra|].
    apply Qle_lteq. right. symmetry. exact E.
  - apply Qle_trans with (inject_Z (300 - t) * (1 # 3))%Q; [|lra].
    apply Qle_lteq. right. exact E.
Qed.

Lemma progressInv_firstRender (lvl : Z) (ps : list Player) : progressInv (firstRender lvl ps).
Proof.
  unfold progressInv. fields. split; [apply Qle_refl|]. split; [discriminate|].
  intros H. discriminate H.
Qed.

Lemma progressInv_perform (a : Action) (s : State) :
  timerInv s -> progressInv s -> progressInv (perform a s).
Proof.
  intros Hinv Hs. pose proof Hs as (H0 & H1 & Hrun).
  destruct (quiet a) eqn:Hq.
  - destruct (quiet_frame a s Hq) as (E1 & E2 & _).
    unfold progressInv. rewrite (quiet_progress a s Hq), E1, E2.
    exact Hs.
  - destruct a as [| | |d i|i| |i r| | |fresh|fresh]; try discriminate Hq; cbn [perform].
    + unfold startMatch.
      destruct (Nat.eqb _ 0); [exact Hs|].
      destruct (matchInProgress s); [exact Hs|].
      unfold progressInv. fields.
      split; [apply Qle_refl|]. split; [discriminate|]. intros _. reflexivity.
    + pose proof (inv_range s Hinv) as Hr. unfold MATCH_DURATION_SECONDS in Hr.
      destruct (matchInProgress s) eqn:Ep.
      * destruct (inv_running s Hinv Ep) as ((j & cl & Hi & Href) & Ht & _).
        destruct (Nat.eqb j i) eqn:Eji.
        -- apply Nat.eqb_eq in Eji. subst j.
           rewrite (matchTick_running i cl r s Hi). cbv zeta.
           destruct (progressAt_range (matchTimeLeft s - 1) ltac:(lia)) as [P0 P1].
           destruct (matchTimeLeft s - 1 <=? 0) eqn:Et.
           ++ destruct (finishMatch_timer cl r
                          (setMatchTimeLeft 0
                             (setMatchProgress (progressAt (matchTimeLeft s - 1)) s))
                          i cl Hi Href) as (F1 & _ & _ & _ & F5 & _).
              unfold progressInv. rewrite F5, F1. fields.
              split; [exact P0|]. split; [exact P1|]. intros H. discriminate H.
           ++ unfold progressInv. fields.
              split; [exact P0|]. split; [exact P1|]. intros _. reflexivity.
        -- unfold matchTick. rewrite Hi. cbn [find fst]. rewrite Eji.
           exact Hs.
      * destruct (inv_idle s Hinv Ep) as [Hi _].
        unfold matchTick. rewrite Hi. cbn [find].
        exact Hs.
    + rewrite mount_saveEffect. cbn [orStay]. apply progressInv_firstRender.
    + rewrite mount_Absent. cbn [orStay]. apply progressInv_firstRender.
Qed.

(** X27.  In every reachable state the progress bar is between 0 and 100
    per cent, and while a match is in progress it is exactly
    [(300 - matchTimeLeft) / 300 * 100]: the bar and the clock agree. *)
Theorem progress_bar_agrees_with_clock (s : State) :
  reachable s ->
  (0 <= matchProgress s)%Q /\
  (matchProgress s <= 100)%Q /\
  (matchInProgress s = true ->
   (matchProgress s ==
    inject_Z (300 - matchTimeLeft s) / inject_Z 300 * 100)%Q).
Proof.
  intros Hreach. change (progressInv s).
  induction Hreach as [st fresh s H | a s Hs IH].
  - destruct (mount_firstRender _ _ _ H) as (lvl & ps & ->).
    apply progressInv_firstRender.
  - apply progressInv_perform; [apply reachable_timerInv; exact Hs | exact IH].
Qed.

Lemma progress_bar_agrees_with_clock_witness :
  (matchProgress midMatch == 60)%Q.
Proof.
  assert (Hreach : reachable midMatch) by apply reachable_performAll, reachable_newGame.
  destruct (progress_bar_agrees_with_clock midMatch Hreach) as (_ & _ & H).
  rewrite H by (vm_compute; reflexivity).
  vm_compute. reflexivity.
Defined.
